(** * Messaging backend: message store, chat identifiers and request handlers

    A shallow embedding of the Go packages [internal/domain],
    [internal/adapters/postgres] and [internal/handlers/http] of the 1:1
    messaging backend, with the properties stated about them.

    Go strings are byte strings: they are modelled by [string] (a list of
    8-bit [ascii]), [len] is [String.length] and [<] on strings is the
    bytewise lexicographic order [String.ltb]. *)

From Stdlib Require Import String Ascii List ZArith Lia Bool Arith PeanoNat.
From Stdlib Require Import Sorting.Permutation Sorting.Sorted.
Import ListNotations.

Open Scope string_scope.
Open Scope list_scope.
Open Scope nat_scope.

(* ------------------------------------------------------------------------- *)
(** ** The parts of Go's [strings] package used by the program *)

Module strings.

(** [strings.HasPrefix s prefix]. *)
Definition HasPrefix (s pre : string) : bool := String.prefix pre s.

(** [strings.Contains s substr]: some suffix of [s] starts with [substr]. *)
Fixpoint Contains (s substr : string) : bool :=
  HasPrefix s substr ||
  match s with
  | EmptyString => false
  | String _ r => Contains r substr
  end.

(** The last byte of [s] is [c]. *)
Fixpoint endsWith (c : ascii) (s : string) : bool :=
  match s with
  | EmptyString => false
  | String x r =>
      match r with
      | EmptyString => Ascii.eqb x c
      | String _ _ => endsWith c r
      end
  end.

(** The loop of [strings.Split] for a non-empty separator: the text up to
    the first occurrence of [sep] is the first piece, the scan resumes
    right after that occurrence.  [skip] counts the bytes of a separator
    still to be stepped over. *)
Fixpoint genSplit (sep : string) (skip : nat) (s : string)
  : string * list string :=
  match skip with
  | S k =>
      match s with
      | EmptyString => (EmptyString, [])
      | String _ r => genSplit sep k r
      end
  | O =>
      match s with
      | EmptyString => (EmptyString, [])
      | String c r =>
          if HasPrefix s sep then
            let (p, ps) := genSplit sep (String.length sep - 1) r in
            (EmptyString, p :: ps)
          else
            let (p, ps) := genSplit sep 0 r in
            (String c p, ps)
      end
  end.

(** [strings.Split s sep], for [sep] non-empty (the program only splits on
    ["---"] and ["/"]). *)
Definition Split (s sep : string) : list string :=
  let (p, ps) := genSplit sep 0 s in p :: ps.

(** The bytes of [s] in reverse order, put in front of [acc]. *)
Fixpoint revOnto (s acc : string) : string :=
  match s with
  | EmptyString => acc
  | String c r => revOnto r (String c acc)
  end.

Definition rev (s : string) : string := revOnto s EmptyString.

(** [strings.TrimLeft s cutset] for a cutset of one byte. *)
Fixpoint trimLeftByte (c : ascii) (s : string) : string :=
  match s with
  | EmptyString => EmptyString
  | String x r => if Ascii.eqb x c then trimLeftByte c r else s
  end.

(** [strings.Trim s cutset] for a cutset of one byte. *)
Definition Trim (s : string) (c : ascii) : string :=
  rev (trimLeftByte c (rev (trimLeftByte c s))).

(** [unicode.IsSpace] on the UTF-8 encodings of one, two and three bytes:
    U+0009..U+000D, U+0020; U+0085, U+00A0; U+1680, U+2000..U+200A,
    U+2028, U+2029, U+202F, U+205F, U+3000. *)
Definition isSpace1 (c : ascii) : bool :=
  let n := nat_of_ascii c in
  ((9 <=? n) && (n <=? 13)) || (n =? 32).

Definition isSpace2 (c1 c2 : ascii) : bool :=
  (nat_of_ascii c1 =? 194) &&
  ((nat_of_ascii c2 =? 133) || (nat_of_ascii c2 =? 160)).

Definition isSpace3 (c1 c2 c3 : ascii) : bool :=
  let n1 := nat_of_ascii c1 in
  let n2 := nat_of_ascii c2 in
  let n3 := nat_of_ascii c3 in
  ((n1 =? 225) && (n2 =? 154) && (n3 =? 128))
  || ((n1 =? 226) && (n2 =? 128) &&
      (((128 <=? n3) && (n3 <=? 138)) || (n3 =? 168) || (n3 =? 169)
       || (n3 =? 175)))
  || ((n1 =? 226) && (n2 =? 129) && (n3 =? 159))
  || ((n1 =? 227) && (n2 =? 128) && (n3 =? 128)).

(** Leading white space removed, rune by rune ([strings.TrimLeftFunc] with
    [unicode.IsSpace]); a byte that starts no white-space rune stops it. *)
Fixpoint trimLeftSpace (s : string) : string :=
  match s with
  | EmptyString => EmptyString
  | String c1 r1 =>
      if isSpace1 c1 then trimLeftSpace r1
      else
        match r1 with
        | EmptyString => s
        | String c2 r2 =>
            if isSpace2 c1 c2 then trimLeftSpace r2
            else
              match r2 with
              | EmptyString => s
              | String c3 r3 =>
                  if isSpace3 c1 c2 c3 then trimLeftSpace r3 else s
              end
        end
  end.

(** Trailing white space removed; the argument is the reversed string, so
    the bytes of a rune come last byte first. *)
Fixpoint trimLeftSpaceRev (s : string) : string :=
  match s with
  | EmptyString => EmptyString
  | String c1 r1 =>
      if isSpace1 c1 then trimLeftSpaceRev r1
      else
        match r1 with
        | EmptyString => s
        | String c2 r2 =>
            if isSpace2 c2 c1 then trimLeftSpaceRev r2
            else
              match r2 with
              | EmptyString => s
              | String c3 r3 =>
                  if isSpace3 c3 c2 c1 then trimLeftSpaceRev r3 else s
              end
        end
  end.

(** [strings.TrimSpace]. *)
Definition TrimSpace (s : string) : string :=
  rev (trimLeftSpaceRev (rev (trimLeftSpace s))).

End strings.

(* ------------------------------------------------------------------------- *)
(** ** Go's [time.Time] *)

(** A location, as far as the program reads one: through its offset from
    UTC.  [UTCLoc] is offset zero under its name [Z], which is [time.UTC]
    and the location the driver gives the timestamps it returns;
    [FixedZone] is a zone at a fixed offset in seconds east
    ([time.FixedZone]).  A time in any other location is taken with the
    offset in force at its instant. *)
Inductive Location : Type :=
| UTCLoc
| FixedZone (offset : Z).

(** The location of [time.Now()] in the sample runs: a local zone two hours
    east of UTC. *)
Definition LocalLoc : Location := FixedZone 7200.

(** An instant, in nanoseconds from Go's zero time (January 1, year 1, 00:00
    UTC), and a location. *)
Record Time : Type := mkTime { instant : Z; loc : Location }.

Module time.
(** [t.UTC()]: the same instant, location set to UTC. *)
Definition UTC (t : Time) : Time := mkTime (instant t) UTCLoc.
(** [t.IsZero()]. *)
Definition IsZero (t : Time) : bool := (instant t =? 0)%Z.
(** [t.After(u)], [t.Before(u)]: comparison of instants. *)
Definition After (t u : Time) : bool := (instant u <? instant t)%Z.
Definition Before (t u : Time) : bool := (instant t <? instant u)%Z.
(** The zero value [time.Time{}]. *)
Definition Zero : Time := mkTime 0 UTCLoc.
End time.

(* ------------------------------------------------------------------------- *)
(** ** Package [domain] *)

(** Go's [error] values met in the program: the sentinel errors of
    [domain], the driver's [*pq.Error] with its SQLSTATE code, an error built
    from a text, and [fmt.Errorf] with [%w]. *)
Inductive error : Type :=
| ErrInvalidSenderID
| ErrInvalidReceiverID
| ErrSelfMessage
| ErrEmptyContent
| ErrContentTooLong
| ErrInvalidStatus
| ErrMissingUserID
| ErrMissingEmail
| ErrMissingHandler
| ErrChatNotFound
| ErrMessageNotFound
| ErrUnauthorized
| ErrDuplicateMessage
| PqError (code : string)
| ErrorText (text : string)
| Wrap (text : string) (inner : error).

(** [err.Error()]. *)
Fixpoint errorText (e : error) : string :=
  match e with
  | ErrInvalidSenderID => "invalid sender ID"
  | ErrInvalidReceiverID => "invalid receiver ID"
  | ErrSelfMessage => "cannot send message to self"
  | ErrEmptyContent => "message content cannot be empty"
  | ErrContentTooLong => "message content exceeds maximum length"
  | ErrInvalidStatus => "invalid message status"
  | ErrMissingUserID => "user ID is required"
  | ErrMissingEmail => "user email is required"
  | ErrMissingHandler => "user handler is required"
  | ErrChatNotFound => "chat not found"
  | ErrMessageNotFound => "message not found"
  | ErrUnauthorized => "unauthorized access"
  | ErrDuplicateMessage => "duplicate message"
  | PqError code => ("pq: " ++ code)%string
  | ErrorText text => text
  | Wrap text inner => (text ++ errorText inner)%string
  end.

(** The sentinel at the bottom of a chain of [%w] wrappings. *)
Fixpoint unwrapAll (e : error) : error :=
  match e with
  | Wrap _ inner => unwrapAll inner
  | _ => e
  end.

(** [domain.IsValidationError]: [errors.Is] against the nine validation
    sentinels. *)
Definition IsValidationError (e : error) : bool :=
  match unwrapAll e with
  | ErrInvalidSenderID | ErrInvalidReceiverID | ErrSelfMessage
  | ErrEmptyContent | ErrContentTooLong | ErrInvalidStatus
  | ErrMissingUserID | ErrMissingEmail | ErrMissingHandler => true
  | _ => false
  end.

Record Message : Type := mkMessage {
  SenderID : string;
  ReceiverID : string;
  CreatedAt : Time;
  Content : string;
  Status : string
}.

(** [domain.MessageID], the composite primary key. *)
Record MessageID : Type := mkMessageID {
  idSenderID : string;
  idReceiverID : string;
  idCreatedAt : Time
}.

Definition MessageStatusSent : string := "sent".
Definition MessageStatusDelivered : string := "delivered".
Definition MessageStatusRead : string := "read".

Definition IsValidStatus (status : string) : bool :=
  existsb (fun v => String.eqb v status)
    [MessageStatusSent; MessageStatusDelivered; MessageStatusRead].

(** [Message.Validate]; [None] is Go's [nil]. *)
Definition Validate (m : Message) : option error :=
  if String.eqb (strings.TrimSpace (SenderID m)) "" then
    Some ErrInvalidSenderID
  else if String.eqb (strings.TrimSpace (ReceiverID m)) "" then
    Some ErrInvalidReceiverID
  else if String.eqb (SenderID m) (ReceiverID m) then
    Some ErrSelfMessage
  else if String.eqb (strings.TrimSpace (Content m)) "" then
    Some ErrEmptyContent
  else if (10000 <? Z.of_nat (String.length (Content m)))%Z then
    Some ErrContentTooLong
  else if negb (IsValidStatus (Status m)) then
    Some ErrInvalidStatus
  else None.

(** The separator of chat identifiers. *)
Definition chatSep : string := "---".

(** [domain.ComputeChatID]. *)
Definition ComputeChatID (user1 user2 : string) : string :=
  if String.ltb user1 user2 then (user1 ++ chatSep ++ user2)%string
  else (user2 ++ chatSep ++ user1)%string.

(** [Message.GetOtherParticipant]. *)
Definition GetOtherParticipant (m : Message) (currentUserID : string) : string :=
  if String.eqb (SenderID m) currentUserID then ReceiverID m else SenderID m.

Record ChatSession : Type := mkChatSession {
  ChatID : string;
  OtherParticipant : string;
  LastMessageAt : Time;
  UnreadCount : Z;
  LastMessage : string;
  LastMessageBy : string
}.

Definition IsUnread (cs : ChatSession) : bool := (0 <? UnreadCount cs)%Z.

(* ------------------------------------------------------------------------- *)
(** ** Sorting

    [ORDER BY created_at DESC] and the call of [sort.Slice] in
    [GetChatSessions] both put the greatest time first.  Neither says where
    rows of equal time go; the model keeps them in their earlier order. *)

Section SortDesc.
Context {A : Type} (key : A -> Z).

Fixpoint insertDesc (x : A) (l : list A) : list A :=
  match l with
  | [] => [x]
  | y :: r => if (key y <=? key x)%Z then x :: l else y :: insertDesc x r
  end.

Definition sortDesc (l : list A) : list A := fold_right insertDesc [] l.

(** Each element's key is at least (strictly above) its successor's. *)
Fixpoint descending (l : list A) : Prop :=
  match l with
  | [] => True
  | x :: r =>
      match r with
      | [] => True
      | y :: _ => (key y <= key x)%Z
      end /\ descending r
  end.

End SortDesc.

(* ------------------------------------------------------------------------- *)
(** ** Package [postgres]: the table [messages] and the repository

    The table is the one of [migrations/001_create_messages.up.sql]: rows
    with primary key [(sender_id, receiver_id, created_at)] and the five
    [CHECK] constraints, in a database of encoding UTF8.  The connection is
    taken to be up and each statement runs on the table as it stands.  An
    insert fails on text the server cannot store, on a violated check and on
    a key that is there.  Reads and updates are taken with parameters the
    server accepts as text; on these they do not fail. *)

Module postgres.

(** The rows of table [messages], oldest insertion first, each written as
    the message it was inserted from.  What column [created_at] holds of a
    row is [created_at]; what a query reads back of it is [scan]. *)
Definition Table : Type := list Message.

(** *** Text and time between the program and the server *)

(** The bytes of a well-formed UTF-8 text: one byte up to 7F; C2..DF with
    one continuation byte; E0..EF with two, neither overlong nor a
    surrogate; F0..F4 with three, neither overlong nor above U+10FFFF. *)
Definition byteIn (lo hi : nat) (c : ascii) : bool :=
  (lo <=? nat_of_ascii c) && (nat_of_ascii c <=? hi).

Definition secondOfThree (c1 c2 : ascii) : bool :=
  if nat_of_ascii c1 =? 224 then byteIn 160 191 c2
  else if nat_of_ascii c1 =? 237 then byteIn 128 159 c2
  else byteIn 128 191 c2.

Definition secondOfFour (c1 c2 : ascii) : bool :=
  if nat_of_ascii c1 =? 240 then byteIn 144 191 c2
  else if nat_of_ascii c1 =? 244 then byteIn 128 143 c2
  else byteIn 128 191 c2.

Fixpoint validUTF8 (s : string) : bool :=
  match s with
  | EmptyString => true
  | String c1 r1 =>
      if byteIn 0 127 c1 then validUTF8 r1
      else
        match r1 with
        | EmptyString => false
        | String c2 r2 =>
            if byteIn 194 223 c1 then byteIn 128 191 c2 && validUTF8 r2
            else
              match r2 with
              | EmptyString => false
              | String c3 r3 =>
                  if byteIn 224 239 c1 then
                    secondOfThree c1 c2 && byteIn 128 191 c3 && validUTF8 r3
                  else
                    match r3 with
                    | EmptyString => false
                    | String c4 r4 =>
                        byteIn 240 244 c1 && secondOfFour c1 c2
                        && byteIn 128 191 c3 && byteIn 128 191 c4
                        && validUTF8 r4
                    end
              end
        end
  end.

Fixpoint noNUL (s : string) : bool :=
  match s with
  | EmptyString => true
  | String c r => negb (nat_of_ascii c =? 0) && noNUL r
  end.

(** Text a [TEXT] column takes: well-formed UTF-8 without the byte 00. *)
Definition storable (s : string) : bool := noNUL s && validUTF8 s.

Definition zoneOffset (l : Location) : Z :=
  match l with
  | UTCLoc => 0%Z
  | FixedZone offset => offset
  end.

(** The wall-clock reading of [t] in its own location, in nanoseconds. *)
Definition wallClock (t : Time) : Z :=
  (instant t + 1000000000 * zoneOffset (loc t))%Z.

(** Nanoseconds to the nearest microsecond, an exact half to the even one. *)
Definition roundMicro (ns : Z) : Z :=
  let q := (ns / 1000)%Z in
  let r := (ns mod 1000)%Z in
  if (r <? 500)%Z then q
  else if (500 <? r)%Z then (q + 1)%Z
  else if Z.even q then q else (q + 1)%Z.

(** The value a [TIMESTAMP] column or parameter takes for [t], in
    microseconds: the driver writes [t] with its offset, the server drops
    the offset of a timestamp without time zone and keeps the wall-clock
    reading, rounded to microseconds. *)
Definition timestampOf (t : Time) : Z := roundMicro (wallClock t).

(** The [time.Time] the driver returns for a column value: that reading at
    offset zero.  The driver's location of offset zero is written [UTCLoc]:
    the program reads a time through its instant and its offset only, and
    both print as [Z]. *)
Definition fromTimestamp (ts : Z) : Time := mkTime (1000 * ts) UTCLoc.

Definition created_at (m : Message) : Z := timestampOf (CreatedAt m).

(** [rows.Scan] of a row into a [domain.Message]. *)
Definition scan (m : Message) : Message :=
  mkMessage (SenderID m) (ReceiverID m) (fromTimestamp (created_at m))
    (Content m) (Status m).

(** Equality on the primary key [(sender_id, receiver_id, created_at)]. *)
Definition sameKey (sender receiver : string) (at_ : Z) (m : Message) : bool :=
  String.eqb (SenderID m) sender && String.eqb (ReceiverID m) receiver
  && (created_at m =? at_)%Z.

(** SQL's [TRIM]: blanks (U+0020) removed at both ends. *)
Definition sqlTrim (s : string) : string := strings.Trim s " "%char.

(** The [CHECK] constraints of migration 001. *)
Definition checks (m : Message) : bool :=
  existsb (String.eqb (Status m)) ["sent"; "delivered"; "read"]
  && (0 <? String.length (sqlTrim (SenderID m)))
  && (0 <? String.length (sqlTrim (ReceiverID m)))
  && (0 <? String.length (sqlTrim (Content m)))
  && negb (String.eqb (SenderID m) (ReceiverID m)).

(** [INSERT INTO messages ... VALUES (...)]: SQLSTATE 22021 for text the
    server cannot store, 23514 for a violated check, 23505 for a key that is
    already there. *)
Definition insertRow (db : Table) (m : Message) : option error * Table :=
  if negb (storable (SenderID m) && storable (ReceiverID m)
           && storable (Content m) && storable (Status m))
  then (Some (PqError "22021"), db)
  else if negb (checks m) then (Some (PqError "23514"), db)
  else if existsb (sameKey (SenderID m) (ReceiverID m) (created_at m)) db
       then (Some (PqError "23505"), db)
       else (None, db ++ [m]).

Definition SaveMessage (db : Table) (message : Message)
  : option error * Table :=
  match Validate message with
  | Some err => (Some (Wrap "message validation failed: " err), db)
  | None =>
      match insertRow db message with
      | (Some err, db') =>
          match err with
          | PqError code =>
              if String.eqb code "23505" then (Some ErrDuplicateMessage, db')
              else (Some (Wrap "failed to save message: " err), db')
          | _ => (Some (Wrap "failed to save message: " err), db')
          end
      | (None, db') => (None, db')
      end
  end.

(** [(sender_id = $1 AND receiver_id = $2) OR (sender_id = $2 AND
    receiver_id = $1)]. *)
Definition between (user1 user2 : string) (m : Message) : bool :=
  (String.eqb (SenderID m) user1 && String.eqb (ReceiverID m) user2)
  || (String.eqb (SenderID m) user2 && String.eqb (ReceiverID m) user1).

Definition orderByCreatedAtDesc : list Message -> list Message :=
  sortDesc created_at.

Definition GetMessages (db : Table) (chatID : string) (cursor : Time)
    (limit : Z) : list Message + error :=
  let limit := if (limit <=? 0)%Z || (100 <? limit)%Z then 50%Z else limit in
  match strings.Split chatID "---" with
  | [user1; user2] =>
      let rows :=
        if time.IsZero cursor then filter (between user1 user2) db
        else filter (fun m => between user1 user2 m
                              && (created_at m <? timestampOf cursor)%Z) db in
      inl (map scan (firstn (Z.to_nat limit) (orderByCreatedAtDesc rows)))
  | _ => inr (ErrorText ("invalid chat ID format: " ++ chatID)%string)
  end.

(** [SELECT DISTINCT CASE WHEN sender_id = $1 THEN receiver_id ELSE
    sender_id END ... WHERE sender_id = $1 OR receiver_id = $1]. *)
Definition participantsOf (db : Table) (userID : string) : list string :=
  nodup string_dec
    (map (fun m => if String.eqb (SenderID m) userID then ReceiverID m
                   else SenderID m)
       (filter (fun m => String.eqb (SenderID m) userID
                         || String.eqb (ReceiverID m) userID) db)).

(** [sender_id = $1 AND receiver_id = $2 AND status != 'read']. *)
Definition unreadFrom (sender receiver : string) (m : Message) : bool :=
  String.eqb (SenderID m) sender && String.eqb (ReceiverID m) receiver
  && negb (String.eqb (Status m) "read").

Definition sessionFor (db : Table) (userID participant : string)
  : ChatSession :=
  let unread := Z.of_nat (length (filter (unreadFrom participant userID) db)) in
  match firstn 1 (orderByCreatedAtDesc (filter (between userID participant) db)) with
  | last :: _ =>
      mkChatSession (ComputeChatID userID participant) participant
        (fromTimestamp (created_at last)) unread (Content last) (SenderID last)
  | [] =>
      mkChatSession (ComputeChatID userID participant) participant
        time.Zero unread "" ""
  end.

Definition GetChatSessions (db : Table) (userID : string)
  : list ChatSession :=
  sortDesc (fun s => instant (LastMessageAt s))
    (map (sessionFor db userID) (participantsOf db userID)).

(** The rows the cascade of [MarkMessagesUpToRead] updates. *)
Definition upToUnread (msg : MessageID) (m : Message) : bool :=
  String.eqb (ReceiverID m) (idReceiverID msg)
  && String.eqb (SenderID m) (idSenderID msg)
  && (created_at m <=? timestampOf (idCreatedAt msg))%Z
  && negb (String.eqb (Status m) MessageStatusRead).

Definition setStatus (status : string) (m : Message) : Message :=
  mkMessage (SenderID m) (ReceiverID m) (CreatedAt m) (Content m) status.

(** [UPDATE messages SET status = s WHERE hit]: the new table and the
    number of rows affected. *)
Definition updateStatus (hit : Message -> bool) (status : string)
    (db : Table) : Z * Table :=
  (Z.of_nat (length (filter hit db)),
   map (fun m => if hit m then setStatus status m else m) db).

Definition MarkMessagesUpToRead (db : Table) (msg : MessageID)
  : Z * Table :=
  updateStatus (upToUnread msg) MessageStatusRead db.

Definition GetMessageByID (db : Table) (messageID : MessageID)
  : Message + error :=
  match find (sameKey (idSenderID messageID) (idReceiverID messageID)
                (timestampOf (idCreatedAt messageID))) db with
  | Some m => inl (scan m)
  | None => inr ErrMessageNotFound
  end.

Definition GetUnreadCount (db : Table) (userID chatID : string)
  : Z + error :=
  match strings.Split chatID "---" with
  | [user1; user2] =>
      let otherUser := if String.eqb user1 userID then user2 else user1 in
      inl (Z.of_nat (length (filter (unreadFrom otherUser userID) db)))
  | _ => inr (ErrorText ("invalid chat ID format: " ++ chatID)%string)
  end.

Definition MarkChatAsRead (db : Table) (userID chatID : string)
  : option error * Table :=
  match strings.Split chatID "---" with
  | [user1; user2] =>
      let otherUser := if String.eqb user1 userID then user2 else user1 in
      (None, snd (updateStatus (unreadFrom otherUser userID) "read" db))
  | _ => (Some (ErrorText ("invalid chat ID format: " ++ chatID)%string), db)
  end.

(** A call of the repository, and its effect on the table. *)
Inductive Op : Type :=
| OpSaveMessage (message : Message)
| OpGetMessages (chatID : string) (cursor : Time) (limit : Z)
| OpGetChatSessions (userID : string)
| OpMarkMessagesUpToRead (msg : MessageID)
| OpGetMessageByID (messageID : MessageID)
| OpGetUnreadCount (userID chatID : string)
| OpMarkChatAsRead (userID chatID : string).

Definition step (db : Table) (op : Op) : Table :=
  match op with
  | OpSaveMessage m => snd (SaveMessage db m)
  | OpMarkMessagesUpToRead msg => snd (MarkMessagesUpToRead db msg)
  | OpMarkChatAsRead u c => snd (MarkChatAsRead db u c)
  | OpGetMessages _ _ _ | OpGetChatSessions _ | OpGetMessageByID _
  | OpGetUnreadCount _ _ => db
  end.

Definition run (db : Table) (ops : list Op) : Table := fold_left step ops db.

End postgres.

(* ------------------------------------------------------------------------- *)
(** ** Package [ports]: the interfaces the handlers are written against *)

Record StatusUpdate : Type := mkStatusUpdate {
  suMessageID : MessageID;
  suStatus : string;
  suUpdatedBy : string;
  suUpdatedAt : Time
}.

(** [ports.MessageRepository], over the state [R] of an implementation. *)
Class MessageRepository (R : Type) : Type := {
  repoSaveMessage : R -> Message -> option error * R;
  repoGetMessages : R -> string -> Time -> Z -> (list Message + error) * R;
  repoGetChatSessions : R -> string -> (list ChatSession + error) * R;
  repoMarkMessagesUpToRead : R -> MessageID -> (Z * option error) * R
}.

(** [ports.MessagePublisher], over the state [P] of an implementation. *)
Class MessagePublisher (P : Type) : Type := {
  PublishMessage : P -> Message -> option error * P;
  PublishStatusUpdate : P -> string -> StatusUpdate -> option error * P
}.

(** The PostgreSQL repository implements the interface; the table never
    fails on a read or an update. *)
#[export] Instance postgresRepository : MessageRepository postgres.Table := {
  repoSaveMessage := postgres.SaveMessage;
  repoGetMessages db chatID cursor limit :=
    (postgres.GetMessages db chatID cursor limit, db);
  repoGetChatSessions db userID := (inl (postgres.GetChatSessions db userID), db);
  repoMarkMessagesUpToRead db msg :=
    let (n, db') := postgres.MarkMessagesUpToRead db msg in ((n, None), db')
}.

(** A publisher with no state of its own whose every call returns the given
    result: [None] always delivers, [Some err] always fails. *)
Definition constPublisher (result : option error) : MessagePublisher unit := {|
  PublishMessage p _ := (result, p);
  PublishStatusUpdate p _ _ := (result, p)
|}.

(* ------------------------------------------------------------------------- *)
(** ** Package [handlers/http] *)

Record UserContext : Type := mkUserContext {
  UserID : string;
  Email : string;
  Handler : string
}.

Record SendMessageRequest : Type := { reqContent : string }.
Record UpdateStatusRequest : Type := { reqMessageID : MessageID }.

(** What a handler reads of [*http.Request]: the URL path, the query
    parameters, the user the middleware stored in the context, and the body. *)
Record Request : Type := mkRequest {
  Path : string;
  Query : string -> string;
  User : option UserContext;
  Body : string
}.

Record ErrorResponse : Type := mkErrorResponse {
  Error : string;
  Code : string;
  Details : string
}.

Inductive ResponseBody : Type :=
| JSONError (e : ErrorResponse)
| JSONSendMessage (senderID receiverID : string) (createdAt : Time)
    (content status : string)
| JSONGetMessages (messages : list Message) (nextCursor : string)
    (hasMore : bool)
| JSONUpdateStatus (updatedCount : Z).

Record Response : Type := mkResponse {
  StatusCode : Z;
  ResponseJSON : ResponseBody
}.

Inductive LogEntry : Type :=
| LogError (msg : string) (err : error)
| LogDebug (msg : string).

(** A [MessageHandler]: its repository, its publisher and what its logger
    has received. *)
Record MessageHandler (R P : Type) : Type := mkHandler {
  MessageRepo : R;
  Publisher : P;
  Logger : list LogEntry
}.
Arguments mkHandler {R P}.
Arguments MessageRepo {R P}.
Arguments Publisher {R P}.
Arguments Logger {R P}.

Definition StatusOK : Z := 200.
Definition StatusCreated : Z := 201.
Definition StatusBadRequest : Z := 400.
Definition StatusUnauthorized : Z := 401.
Definition StatusForbidden : Z := 403.
Definition StatusConflict : Z := 409.
Definition StatusInternalServerError : Z := 500.

Definition writeErrorResponse (statusCode : Z) (message code details : string)
  : Response :=
  mkResponse statusCode (JSONError (mkErrorResponse message code details)).

Definition isUserParticipant (userID chatID : string) : bool :=
  strings.Contains chatID userID.

Section Handlers.
Context {R P : Type} {repository : MessageRepository R}
        {publisher : MessagePublisher P}.

(** The library calls of the handlers that the model leaves open:
    [json.Decoder.Decode] into the two request types, [time.Parse] and
    [Time.Format] with [time.RFC3339], and [strconv.Atoi]. *)
Variable decodeSend : string -> SendMessageRequest + error.
Variable decodeStatus : string -> UpdateStatusRequest + error.
Variable parseRFC3339 : string -> option Time.
Variable formatRFC3339 : Time -> string.
Variable Atoi : string -> option Z.

Definition logTo (h : MessageHandler R P) (e : LogEntry) : MessageHandler R P :=
  mkHandler (MessageRepo h) (Publisher h) (Logger h ++ [e]).

(** [pathParts[3]], when [len(pathParts) >= 4] and it is not empty. *)
Definition pathParam (path : string) : option string :=
  match nth_error (strings.Split (strings.Trim path "/"%char) "/") 3 with
  | Some part => if String.eqb part "" then None else Some part
  | None => None
  end.

(** [now] is what [time.Now()] returns during the call. *)
Definition SendMessage (h : MessageHandler R P) (r : Request) (now : Time)
  : Response * MessageHandler R P :=
  match pathParam (Path r) with
  | None =>
      (writeErrorResponse StatusBadRequest "Missing receiver ID"
         "MISSING_RECEIVER_ID" "receiverId path parameter is required", h)
  | Some receiverID =>
  match User r with
  | None =>
      (writeErrorResponse StatusUnauthorized "User context not found"
         "NO_USER_CONTEXT" "", h)
  | Some user =>
  match decodeSend (Body r) with
  | inr err =>
      (writeErrorResponse StatusBadRequest "Invalid JSON" "INVALID_JSON"
         (errorText err), h)
  | inl req =>
  let message :=
    mkMessage (UserID user) receiverID (time.UTC now) (reqContent req) "sent" in
  match Validate message with
  | Some err =>
      if IsValidationError err then
        (writeErrorResponse StatusBadRequest "Validation failed"
           "VALIDATION_ERROR" (errorText err), h)
      else
        (writeErrorResponse StatusInternalServerError "Internal error"
           "INTERNAL_ERROR" (errorText err), h)
  | None =>
  let (saved, repo') := repoSaveMessage (MessageRepo h) message in
  let h := mkHandler repo' (Publisher h) (Logger h) in
  match saved with
  | Some ErrDuplicateMessage =>
      (writeErrorResponse StatusConflict "Duplicate message"
         "DUPLICATE_MESSAGE" "Message already exists", h)
  | Some err =>
      (writeErrorResponse StatusInternalServerError "Failed to save message"
         "SAVE_ERROR" "", logTo h (LogError "Failed to save message" err))
  | None =>
  let (published, pub') := PublishMessage (Publisher h) message in
  let h := mkHandler (MessageRepo h) pub' (Logger h) in
  let h := match published with
           | Some err => logTo h (LogError "Failed to publish message" err)
           | None => h
           end in
  (mkResponse StatusCreated
     (JSONSendMessage (SenderID message) (ReceiverID message)
        (CreatedAt message) (Content message) (Status message)),
   logTo h (LogDebug "Message sent successfully"))
  end end end end end.

Definition GetMessages (h : MessageHandler R P) (r : Request)
  : Response * MessageHandler R P :=
  match pathParam (Path r) with
  | None =>
      (writeErrorResponse StatusBadRequest "Missing chat ID"
         "MISSING_CHAT_ID" "chatId path parameter is required", h)
  | Some chatID =>
  match User r with
  | None =>
      (writeErrorResponse StatusUnauthorized "User context not found"
         "NO_USER_CONTEXT" "", h)
  | Some user =>
  if negb (isUserParticipant (UserID user) chatID) then
    (writeErrorResponse StatusForbidden "Access denied" "ACCESS_DENIED"
       "User is not a participant in this chat", h)
  else
  let cursorStr := Query r "cursor" in
  let limitStr := Query r "limit" in
  match (if String.eqb cursorStr "" then Some time.Zero
         else parseRFC3339 cursorStr) with
  | None =>
      (writeErrorResponse StatusBadRequest "Invalid cursor format"
         "INVALID_CURSOR" "Cursor must be RFC3339 formatted timestamp", h)
  | Some cursor =>
  match (if String.eqb limitStr "" then Some 50%Z
         else match Atoi limitStr with
              | Some limit =>
                  if (limit <? 1)%Z || (100 <? limit)%Z then None
                  else Some limit
              | None => None
              end) with
  | None =>
      (writeErrorResponse StatusBadRequest "Invalid limit" "INVALID_LIMIT"
         "Limit must be between 1 and 100", h)
  | Some limit =>
  let (found, repo') := repoGetMessages (MessageRepo h) chatID cursor limit in
  let h := mkHandler repo' (Publisher h) (Logger h) in
  match found with
  | inr err =>
      (writeErrorResponse StatusInternalServerError "Failed to get messages"
         "GET_MESSAGES_ERROR" "",
       logTo h (LogError "Failed to get messages" err))
  | inl messages =>
      let hasMore := (Z.of_nat (length messages) =? limit)%Z in
      let nextCursor :=
        match hasMore, last (map Some messages) None with
        | true, Some lastMessage => formatRFC3339 (CreatedAt lastMessage)
        | _, _ => ""
        end in
      (mkResponse StatusOK (JSONGetMessages messages nextCursor hasMore),
       logTo h (LogDebug "Messages retrieved successfully"))
  end end end end end.

Definition UpdateMessageStatus (h : MessageHandler R P) (r : Request)
    (now : Time) : Response * MessageHandler R P :=
  match User r with
  | None =>
      (writeErrorResponse StatusUnauthorized "User context not found"
         "NO_USER_CONTEXT" "", h)
  | Some user =>
  match decodeStatus (Body r) with
  | inr err =>
      (writeErrorResponse StatusBadRequest "Invalid JSON" "INVALID_JSON"
         (errorText err), h)
  | inl req =>
  if negb (String.eqb (idReceiverID (reqMessageID req)) (UserID user)) then
    (writeErrorResponse StatusForbidden "Access denied" "ACCESS_DENIED"
       "Can only update status of messages you received", h)
  else
  let '(affected, failed, repo') :=
    repoMarkMessagesUpToRead (MessageRepo h) (reqMessageID req) in
  let h := mkHandler repo' (Publisher h) (Logger h) in
  match failed with
  | Some err =>
      (writeErrorResponse StatusInternalServerError "Failed to update status"
         "UPDATE_STATUS_ERROR" "",
       logTo h (LogError "Failed to update message status" err))
  | None =>
  let statusUpdate :=
    mkStatusUpdate (reqMessageID req) MessageStatusRead (UserID user)
      (time.UTC now) in
  let (published, pub') :=
    PublishStatusUpdate (Publisher h) (UserID user) statusUpdate in
  let h := mkHandler (MessageRepo h) pub' (Logger h) in
  let h := match published with
           | Some err =>
               logTo h (LogError "Failed to publish status update" err)
           | None => h
           end in
  (mkResponse StatusOK (JSONUpdateStatus affected),
   logTo h (LogDebug "Message status updated successfully"))
  end end end.

End Handlers.

(* ------------------------------------------------------------------------- *)
(** ** Sample data *)

(** [n] microseconds after the zero time, in UTC. *)
Definition at_ (n : Z) : Time := mkTime (1000 * n) UTCLoc.

Definition hiBob : Message := mkMessage "alice" "bob" (at_ 5) "hi" "sent".
Definition hiAlice : Message := mkMessage "bob" "alice" (at_ 5) "hi yourself" "sent".
Definition readByBob : Message := mkMessage "alice" "bob" (at_ 3) "hello" "read".

(** [n] blanks. *)
Definition blanks (n : nat) : string := string_of_list_ascii (repeat " "%char n).

(* ------------------------------------------------------------------------- *)
(** ** The field constraints of a message *)

Definition nonBlank (s : string) : Prop := strings.TrimSpace s <> "".

Definition validStatuses : list string := ["sent"; "delivered"; "read"].

(** The constraints in the words of the data model: identifiers non-empty
    and of at most 100 bytes, the receiver another user than the sender, the
    content of 1 to 10000 bytes once trimmed, a known status. *)
Definition fieldConstraints (m : Message) : Prop :=
  SenderID m <> "" /\ String.length (SenderID m) <= 100 /\
  ReceiverID m <> "" /\ String.length (ReceiverID m) <= 100 /\
  ReceiverID m <> SenderID m /\
  1 <= String.length (strings.TrimSpace (Content m)) /\
  (Z.of_nat (String.length (strings.TrimSpace (Content m))) <= 10000)%Z /\
  In (Status m) validStatuses.

(** The constraints [Validate] decides on messages whose identifiers have at
    most 100 bytes: blank identifiers and blank content are refused, and the
    bound of 10000 bytes is on the content as it is, before trimming. *)
Definition checkedConstraints (m : Message) : Prop :=
  nonBlank (SenderID m) /\ String.length (SenderID m) <= 100 /\
  nonBlank (ReceiverID m) /\ String.length (ReceiverID m) <= 100 /\
  ReceiverID m <> SenderID m /\
  nonBlank (Content m) /\
  (Z.of_nat (String.length (Content m)) <= 10000)%Z /\
  In (Status m) validStatuses.

(** One byte of content followed by 10000 blanks. *)
Definition paddedContent : Message :=
  mkMessage "alice" "bob" (at_ 1) ("x" ++ blanks (Z.to_nat 10000))%string "sent".

(** A sender identifier of 101 bytes. *)
Definition longSender : Message :=
  mkMessage (string_of_list_ascii (repeat "a"%char 101)) "bob" (at_ 1) "hi" "sent".

(* ------------------------------------------------------------------------- *)
(** ** Notions used in the statements *)

(** Every byte of [s] is [c]. *)
Fixpoint allByte (c : ascii) (s : string) : bool :=
  match s with
  | EmptyString => true
  | String x r => Ascii.eqb x c && allByte c r
  end.

(** The rows that carry the primary key of [m]. *)
Definition keyOf (m : Message) : Message -> bool :=
  postgres.sameKey (SenderID m) (ReceiverID m) (postgres.created_at m).

(** Splitting the chat identifier of [a] and [b] gives back the two of
    them, in one order or the other. *)
Definition roundTrips (a b : string) : Prop :=
  strings.Split (ComputeChatID a b) chatSep = [a; b] \/
  strings.Split (ComputeChatID a b) chatSep = [b; a].

(** [a] and [b] are accepted as the sender and the receiver of a message. *)
Definition acceptedPair (a b : string) : Prop :=
  exists (t : Time) (content status : string),
    Validate (mkMessage a b t content status) = None.

(** The separator does not occur in [id], and [id] does not end with the
    separator's byte. *)
Definition separatorFree (id : string) : Prop :=
  strings.Contains id chatSep = false /\ strings.endsWith "-"%char id = false.

(** [userID] is one of the two participants encoded in [chatID]. *)
Definition encodedParticipant (userID chatID : string) : Prop :=
  exists other : string,
    strings.Split chatID chatSep = [userID; other] \/
    strings.Split chatID chatSep = [other; userID].

(** The user context the middleware builds from the headers. *)
Definition userNamed (user : string) : UserContext :=
  mkUserContext user (user ++ "@test.com")%string (user ++ "_h")%string.

(** A request as the router hands it to a handler, without query
    parameters. *)
Definition requestOf (path : string) (user : string) (body : string) : Request :=
  mkRequest path (fun _ => "") (Some (userNamed user)) body.

(** A decoder of send requests that takes the body for the content. *)
Definition contentOfBody (body : string) : SendMessageRequest + error :=
  inl {| reqContent := body |}.

(** A decoder of status requests that answers with one fixed message id. *)
Definition alwaysID (messageID : MessageID) (body : string)
  : UpdateStatusRequest + error :=
  inl {| reqMessageID := messageID |}.

(** A publisher out of reach: every call fails. *)
Definition natsDown : error := ErrorText "nats: connection closed".
Definition failingPublisher : MessagePublisher unit := constPublisher (Some natsDown).

(** [m] is a message between [a] and [b]: from one of them to the other. *)
Definition exchanged (a b : string) (m : Message) : Prop :=
  (SenderID m = a /\ ReceiverID m = b) \/ (SenderID m = b /\ ReceiverID m = a).

Definition exchanged_dec (a b : string) (m : Message)
  : {exchanged a b m} + {~ exchanged a b m} :=
  match string_dec (SenderID m) a, string_dec (ReceiverID m) b,
        string_dec (SenderID m) b, string_dec (ReceiverID m) a with
  | left Hs, left Hr, _, _ => left (or_introl (conj Hs Hr))
  | _, _, left Hs, left Hr => left (or_intror (conj Hs Hr))
  | right Hs, _, right Hs', _ =>
      right (fun H => match H with
                      | or_introl (conj E _) => Hs E
                      | or_intror (conj E _) => Hs' E
                      end)
  | right Hs, _, _, right Hr' =>
      right (fun H => match H with
                      | or_introl (conj E _) => Hs E
                      | or_intror (conj _ E) => Hr' E
                      end)
  | _, right Hr, right Hs', _ =>
      right (fun H => match H with
                      | or_introl (conj _ E) => Hr E
                      | or_intror (conj E _) => Hs' E
                      end)
  | _, right Hr, _, right Hr' =>
      right (fun H => match H with
                      | or_introl (conj _ E) => Hr E
                      | or_intror (conj _ E) => Hr' E
                      end)
  end.

(** The rows of the conversation of [a] and [b]: the rows of the table that
    are messages between the two. *)
Definition conversation (db : postgres.Table) (a b : string) : list Message :=
  filter (fun m => if exchanged_dec a b m then true else false) db.

(** The messages of the conversation of [a] and [b], as a query reads
    them. *)
Definition conversationMessages (db : postgres.Table) (a b : string)
  : list Message :=
  map postgres.scan (conversation db a b).

(** The creation time of a message as the program compares times: by the
    instant. *)
Definition createdInstant (m : Message) : Z := instant (CreatedAt m).


(** The limit [GetMessages] applies. *)
Definition effectiveLimit (limit : Z) : Z :=
  if (limit <=? 0)%Z || (100 <? limit)%Z then 50%Z else limit.

(** A message stored with Go's zero time. *)
Definition atZero : Message := mkMessage "alice" "bob" time.Zero "first" "sent".

(** [u] and [p] have exchanged a message: one from [u] to [p] or one from
    [p] to [u] is in the table. *)
Definition exchangedWith (db : postgres.Table) (u p : string) : Prop :=
  exists m : Message,
    In m db /\
    ((SenderID m = u /\ ReceiverID m = p) \/ (SenderID m = p /\ ReceiverID m = u)).

(** The messages sent to [u] by [p] that are not read. *)
Definition unreadMessages (db : postgres.Table) (u p : string) : list Message :=
  filter (fun m => String.eqb (ReceiverID m) u && String.eqb (SenderID m) p
                   && negb (String.eqb (Status m) MessageStatusRead)) db.

(** [m] is a most recent message between [u] and [p]. *)
Definition mostRecent (db : postgres.Table) (u p : string) (m : Message) : Prop :=
  In m (conversation db u p) /\
  forall m', In m' (conversation db u p) ->
             (postgres.created_at m' <= postgres.created_at m)%Z.

Definition lastMessageAt (s : ChatSession) : Z := instant (LastMessageAt s).

(** A table with three conversations of alice. *)
Definition sampleTable : postgres.Table :=
  [ mkMessage "alice" "bob" (at_ 1) "hello bob" "read";
    mkMessage "carol" "alice" (at_ 2) "lunch?" "sent";
    mkMessage "bob" "alice" (at_ 3) "hello alice" "delivered";
    mkMessage "alice" "dave" (at_ 4) "ping" "sent";
    mkMessage "bob" "alice" (at_ 6) "are you there" "sent";
    mkMessage "bob" "carol" (at_ 7) "not for alice" "sent" ].

(* ------------------------------------------------------------------------- *)
(** ** Package [domain], continued: topics and user contexts *)

Definition MessageTopicPrefix : string := "messages".
Definition StatusTopicPrefix : string := "status".

(** [domain.GetMessageTopic], [domain.GetStatusTopic]: ["%s.%s"]. *)
Definition GetMessageTopic (receiverID : string) : string :=
  (MessageTopicPrefix ++ "." ++ receiverID)%string.

Definition GetStatusTopic (userID : string) : string :=
  (StatusTopicPrefix ++ "." ++ userID)%string.

Definition MessageTypeNewMessage : string := "new_message".
Definition MessageTypeStatusUpdate : string := "status_update".

(** [domain.MessageEnvelope] and [domain.StatusUpdateEnvelope]; the data of
    the latter is the status update the publisher puts there. *)
Inductive Envelope : Type :=
| MessageEnvelope (type : string) (timestamp : Time) (data : Message)
| StatusUpdateEnvelope (type : string) (timestamp : Time) (data : StatusUpdate).

(** [UserContext.Validate]. *)
Definition ValidateUser (uc : UserContext) : option error :=
  if String.eqb (strings.TrimSpace (UserID uc)) "" then Some ErrMissingUserID
  else if String.eqb (strings.TrimSpace (Email uc)) "" then Some ErrMissingEmail
  else if String.eqb (strings.TrimSpace (Handler uc)) "" then
    Some ErrMissingHandler
  else None.

(** [domain.ComputeChatIDFromParticipants]. *)
Definition ComputeChatIDFromParticipants (participant1 participant2 : string)
  : string :=
  ComputeChatID participant1 participant2.

(* ------------------------------------------------------------------------- *)
(** ** Package [nats]: the publisher *)

(** What the publisher uses of [*nats.Conn]: [Publish(subject, payload)]. *)
Class NatsConn (C : Type) : Type := {
  connPublish : C -> string -> string -> option error * C
}.

(** A [NATSMessagePublisher]: its connection, the reading of [time.Now()]
    during its calls, and what its logger has received. *)
Record NATSMessagePublisher (C : Type) : Type := mkNATSPublisher {
  natsConn : C;
  natsNow : Time;
  natsLogger : list LogEntry
}.
Arguments mkNATSPublisher {C}.
Arguments natsConn {C}.
Arguments natsNow {C}.
Arguments natsLogger {C}.

Section Nats.
Context {C : Type} {connection : NatsConn C}.

(** [json.Marshal] of an envelope, left open. *)
Variable Marshal : Envelope -> string + error.

(** [NATSMessagePublisher.PublishMessage]. *)
Definition natsPublishMessage (p : NATSMessagePublisher C) (message : Message)
  : option error * NATSMessagePublisher C :=
  let subject := GetMessageTopic (ReceiverID message) in
  let envelope :=
    MessageEnvelope MessageTypeNewMessage (time.UTC (natsNow p)) message in
  match Marshal envelope with
  | inr err => (Some (Wrap "failed to marshal message: " err), p)
  | inl payload =>
      let (failed, conn') := connPublish (natsConn p) subject payload in
      match failed with
      | Some err =>
          (Some (Wrap ("failed to publish message to subject " ++ subject
                       ++ ": ") err),
           mkNATSPublisher conn' (natsNow p) (natsLogger p))
      | None =>
          (None,
           mkNATSPublisher conn' (natsNow p)
             (natsLogger p ++ [LogDebug "Message published to NATS"]))
      end
  end.

(** [NATSMessagePublisher.PublishStatusUpdate]. *)
Definition natsPublishStatusUpdate (p : NATSMessagePublisher C)
    (userID : string) (statusUpdate : StatusUpdate)
  : option error * NATSMessagePublisher C :=
  let subject := GetStatusTopic userID in
  let envelope :=
    StatusUpdateEnvelope MessageTypeStatusUpdate (time.UTC (natsNow p))
      statusUpdate in
  match Marshal envelope with
  | inr err => (Some (Wrap "failed to marshal status update: " err), p)
  | inl payload =>
      let (failed, conn') := connPublish (natsConn p) subject payload in
      match failed with
      | Some err =>
          (Some (Wrap ("failed to publish status update to subject " ++ subject
                       ++ ": ") err),
           mkNATSPublisher conn' (natsNow p) (natsLogger p))
      | None =>
          (None,
           mkNATSPublisher conn' (natsNow p)
             (natsLogger p ++ [LogDebug "Status update published to NATS"]))
      end
  end.

Definition natsPublisher : MessagePublisher (NATSMessagePublisher C) := {|
  PublishMessage := natsPublishMessage;
  PublishStatusUpdate := natsPublishStatusUpdate
|}.

End Nats.

(** A connection that delivers: it keeps what was published, subject and
    payload, oldest first. *)
Definition Delivered : Type := list (string * string).

#[export] Instance deliveringConn : NatsConn Delivered := {
  connPublish sent subject payload := (None, sent ++ [(subject, payload)])
}.

(* ------------------------------------------------------------------------- *)
(** ** Package [handlers/http], continued: the chat handler *)

Inductive ChatResponseBody : Type :=
| JSONChatError (e : ErrorResponse)
| JSONGetChats (chats : list ChatSession).

Record ChatResponse : Type := mkChatResponse {
  ChatStatusCode : Z;
  ChatResponseJSON : ChatResponseBody
}.

Record ChatHandler (R : Type) : Type := mkChatHandler {
  ChatMessageRepo : R;
  ChatLogger : list LogEntry
}.
Arguments mkChatHandler {R}.
Arguments ChatMessageRepo {R}.
Arguments ChatLogger {R}.

(** [ChatHandler.GetChats]. *)
Definition GetChats {R : Type} {repository : MessageRepository R}
    (h : ChatHandler R) (r : Request) : ChatResponse * ChatHandler R :=
  match User r with
  | None =>
      (mkChatResponse StatusUnauthorized
         (JSONChatError (mkErrorResponse "User context not found"
                           "NO_USER_CONTEXT" "")), h)
  | Some user =>
      let (found, repo') := repoGetChatSessions (ChatMessageRepo h) (UserID user) in
      match found with
      | inr err =>
          (mkChatResponse StatusInternalServerError
             (JSONChatError (mkErrorResponse "Failed to get chats"
                               "GET_CHATS_ERROR" "")),
           mkChatHandler repo'
             (ChatLogger h ++ [LogError "Failed to get chat sessions" err]))
      | inl sessions =>
          (mkChatResponse StatusOK (JSONGetChats sessions),
           mkChatHandler repo'
             (ChatLogger h ++ [LogDebug "Chat sessions retrieved successfully"]))
      end
  end.

(* ------------------------------------------------------------------------- *)
(** ** Package [adapters/http]: the user-context middleware *)

Record AuthConfig : Type := mkAuthConfig {
  UserIDHeader : string;
  EmailHeader : string;
  HandlerHeader : string
}.

(** [Server.withUserContext]: [header] is [r.Header.Get]; the result is the
    response written in place of the handler's, or the user context the
    handler is called with. *)
Definition withUserContext (auth : AuthConfig) (header : string -> string)
  : Response + UserContext :=
  let userID := header (UserIDHeader auth) in
  let email := header (EmailHeader auth) in
  let handler := header (HandlerHeader auth) in
  if String.eqb userID "" then
    inl (writeErrorResponse StatusUnauthorized "Missing user context"
           "MISSING_USER_ID" (UserIDHeader auth ++ " header is required"))
  else
    let userContext := mkUserContext userID email handler in
    match ValidateUser userContext with
    | Some err =>
        inl (writeErrorResponse StatusUnauthorized "Invalid user context"
               "INVALID_USER_CONTEXT" (errorText err))
    | None => inr userContext
    end.

(* ------------------------------------------------------------------------- *)
(** ** Further notions used in the statements *)

(** [m'] is [m], or [m] with its status set to read. *)
Definition sameOrRead (m m' : Message) : Prop :=
  m' = m \/ m' = postgres.setStatus MessageStatusRead m.

(** The primary key of a row. *)
Definition primaryKey (m : Message) : string * string * Z :=
  (SenderID m, ReceiverID m, postgres.created_at m).

(** The table keeps its constraints: no key twice, every row passes the
    checks. *)
Definition wellFormed (db : postgres.Table) : Prop :=
  NoDup (map primaryKey db) /\ Forall (fun m => postgres.checks m = true) db.

(** The message id that addresses [m]. *)
Definition idOf (m : Message) : MessageID :=
  mkMessageID (SenderID m) (ReceiverID m) (CreatedAt m).

(** [header] for a request carrying the three default headers. *)
Definition headersOf (userID email handler : string) (name : string) : string :=
  if String.eqb name "x-interface-user-id" then userID
  else if String.eqb name "x-interface-user-email" then email
  else if String.eqb name "x-interface-user-handler" then handler
  else "".

Definition defaultAuth : AuthConfig :=
  mkAuthConfig "x-interface-user-id" "x-interface-user-email"
    "x-interface-user-handler".

(** A marshaller that shows the subject-relevant parts of an envelope. *)
Definition showEnvelope (e : Envelope) : string + error :=
  match e with
  | MessageEnvelope type _ data => inl (type ++ ":" ++ Content data)%string
  | StatusUpdateEnvelope type _ data => inl (type ++ ":" ++ suStatus data)%string
  end.

(** [strconv.Atoi] on a 64-bit platform: an optional sign, then decimal
    digits only, and a value that fits [int]. *)
Fixpoint digitsValue (acc : Z) (s : string) : option Z :=
  match s with
  | EmptyString => Some acc
  | String c r =>
      let n := nat_of_ascii c in
      if (48 <=? n) && (n <=? 57)
      then digitsValue (10 * acc + Z.of_nat (n - 48))%Z r
      else None
  end.

Definition strconvAtoi (s : string) : option Z :=
  let parse (negative : bool) (digits : string) : option Z :=
    match digits with
    | EmptyString => None
    | String _ _ =>
        match digitsValue 0 digits with
        | Some v =>
            let n := if negative then (- v)%Z else v in
            if (n <? - 2 ^ 63)%Z || (2 ^ 63 - 1 <? n)%Z then None else Some n
        | None => None
        end
    end in
  match s with
  | String "+" r => parse false r
  | String "-" r => parse true r
  | _ => parse false s
  end.

(** A request with the two query parameters of the message list. *)
Definition listRequest (path user cursor limit : string) : Request :=
  mkRequest path
    (fun name => if String.eqb name "cursor" then cursor
                 else if String.eqb name "limit" then limit else "")
    (Some (userNamed user)) "".

(** The rows a cascade anchored at [msg] is about: from its sender to its
    receiver, created at or before its time. *)
Definition inCascade (msg : MessageID) (m : Message) : bool :=
  String.eqb (ReceiverID m) (idReceiverID msg)
  && String.eqb (SenderID m) (idSenderID msg)
  && (postgres.created_at m <=? postgres.timestampOf (idCreatedAt msg))%Z.

(** The four texts of [m] are text the server stores. *)
Definition storableMessage (m : Message) : bool :=
  postgres.storable (SenderID m) && postgres.storable (ReceiverID m)
  && postgres.storable (Content m) && postgres.storable (Status m).

(** A message whose content begins with the byte 00. *)
Definition nulContent : Message :=
  mkMessage "alice" "bob" (at_ 1) (String "000"%char "hi") "sent".

(** Saving twice in the words of the specification: for a valid [m], the
    second of two saves returns [ErrDuplicateMessage] and the table then
    holds [m] once under its key. *)
Definition savedOnce (db : postgres.Table) (m : Message) : Prop :=
  Validate m = None ->
  let db1 := snd (postgres.SaveMessage db m) in
  fst (postgres.SaveMessage db1 m) = Some ErrDuplicateMessage /\
  filter (postgres.sameKey (SenderID m) (ReceiverID m) (postgres.created_at m))
    (snd (postgres.SaveMessage db1 m)) = [m].

(** [e] is the error of the first check [m] fails, the checks taken in the
    order: sender blank, receiver blank, receiver the sender, content blank,
    content of more than 10000 bytes, status unknown. *)
Definition firstFailingCheck (m : Message) (e : error) : Prop :=
  (e = ErrInvalidSenderID /\ ~ nonBlank (SenderID m)) \/
  (e = ErrInvalidReceiverID /\
   nonBlank (SenderID m) /\ ~ nonBlank (ReceiverID m)) \/
  (e = ErrSelfMessage /\
   nonBlank (SenderID m) /\ nonBlank (ReceiverID m) /\
   SenderID m = ReceiverID m) \/
  (e = ErrEmptyContent /\
   nonBlank (SenderID m) /\ nonBlank (ReceiverID m) /\
   SenderID m <> ReceiverID m /\ ~ nonBlank (Content m)) \/
  (e = ErrContentTooLong /\
   nonBlank (SenderID m) /\ nonBlank (ReceiverID m) /\
   SenderID m <> ReceiverID m /\ nonBlank (Content m) /\
   (10000 < Z.of_nat (String.length (Content m)))%Z) \/
  (e = ErrInvalidStatus /\
   nonBlank (SenderID m) /\ nonBlank (ReceiverID m) /\
   SenderID m <> ReceiverID m /\ nonBlank (Content m) /\
   (Z.of_nat (String.length (Content m)) <= 10000)%Z /\
   ~ In (Status m) validStatuses).

(** [m] is the single most recent message between [u] and [p]. *)
Definition singleMostRecent (db : postgres.Table) (u p : string) (m : Message)
  : Prop :=
  mostRecent db u p m /\ forall m', mostRecent db u p m' -> m' = m.

(** The result contract of the chat list in the words of the specification:
    one session for each counterparty, with its count of unread messages and
    content, author and time of the single most recent message between the
    two, in descending order of that time. *)
Definition sessionsAsSpecified (db : postgres.Table) (u : string) : Prop :=
  let sessions := postgres.GetChatSessions db u in
  NoDup (map OtherParticipant sessions) /\
  (forall p, In p (map OtherParticipant sessions) <-> exchangedWith db u p) /\
  (forall s, In s sessions ->
     UnreadCount s
     = Z.of_nat (length (unreadMessages db u (OtherParticipant s))) /\
     exists m : Message,
       singleMostRecent db u (OtherParticipant s) m /\
       LastMessage s = Content m /\
       LastMessageBy s = SenderID m /\
       LastMessageAt s = CreatedAt m) /\
  descending lastMessageAt sessions.

(* ========================================================================= *)
(** * Properties *)

(** ** Chat identifiers are symmetric *)

Lemma ltb_asym (a b : string) : String.ltb a b = true -> String.ltb b a = false.
Proof.
  unfold String.ltb. rewrite (String.compare_antisym b a).
  destruct (String.compare a b); simpl; congruence.
Qed.

Lemma ltb_total (a b : string) :
  String.ltb a b = false -> String.ltb b a = false -> a = b.
Proof.
  unfold String.ltb. rewrite (String.compare_antisym b a).
  destruct (String.compare a b) eqn:E; simpl; try congruence.
  intros _ _. now apply String.compare_eq_iff.
Qed.

Lemma ComputeChatID_sym (a b : string) : ComputeChatID a b = ComputeChatID b a.
Proof.
  unfold ComputeChatID.
  destruct (String.ltb a b) eqn:Hab, (String.ltb b a) eqn:Hba; trivial.
  - apply ltb_asym in Hab. congruence.
  - now rewrite (ltb_total a b Hab Hba).
Qed.

(** C5: for two different identities [a] and [b], [ComputeChatID a b] and
    [ComputeChatID b a] are the same chat identifier. *)
Theorem ComputeChatID_symmetric (a b : string) :
  a <> b -> ComputeChatID a b = ComputeChatID b a.
Proof. intros _. apply ComputeChatID_sym. Qed.

Lemma ComputeChatID_symmetric_witness :
  "alice" <> "bob" /\ ComputeChatID "alice" "bob" = ComputeChatID "bob" "alice".
Proof.
  split; [discriminate | apply (ComputeChatID_symmetric "alice" "bob"); discriminate].
Defined.

(** ** Validation *)

Lemma IsValidStatus_In (status : string) :
  IsValidStatus status = true <-> In status validStatuses.
Proof.
  unfold IsValidStatus, validStatuses, MessageStatusSent,
    MessageStatusDelivered, MessageStatusRead.
  rewrite existsb_exists. split.
  - intros [v [Hin Heq]]. apply String.eqb_eq in Heq. now subst.
  - intros Hin. exists status. split; [assumption | apply String.eqb_refl].
Qed.

(** What [Validate] decides, whatever the length of the identifiers. *)
Lemma Validate_None_iff (m : Message) :
  Validate m = None <->
  nonBlank (SenderID m) /\ nonBlank (ReceiverID m) /\
  SenderID m <> ReceiverID m /\ nonBlank (Content m) /\
  (Z.of_nat (String.length (Content m)) <= 10000)%Z /\
  In (Status m) validStatuses.
Proof.
  unfold Validate, nonBlank. rewrite <- IsValidStatus_In.
  destruct (String.eqb_spec (strings.TrimSpace (SenderID m)) "");
    [split; [discriminate | tauto] |].
  destruct (String.eqb_spec (strings.TrimSpace (ReceiverID m)) "");
    [split; [discriminate | tauto] |].
  destruct (String.eqb_spec (SenderID m) (ReceiverID m));
    [split; [discriminate | tauto] |].
  destruct (String.eqb_spec (strings.TrimSpace (Content m)) "");
    [split; [discriminate | tauto] |].
  destruct (Z.ltb_spec 10000 (Z.of_nat (String.length (Content m))));
    [split; [discriminate | lia] |].
  destruct (IsValidStatus (Status m)); simpl;
    [split; [intuition | reflexivity] | split; [discriminate | intuition discriminate]].
Qed.

(** The error [Validate] returns is that of the first check that fails, in
    the order sender, receiver, self-message, content, length, status. *)
Lemma Validate_first_failure (m : Message) (e : error) :
  Validate m = Some e ->
  match e with
  | ErrInvalidSenderID => ~ nonBlank (SenderID m)
  | ErrInvalidReceiverID => nonBlank (SenderID m) /\ ~ nonBlank (ReceiverID m)
  | ErrSelfMessage => nonBlank (SenderID m) /\ SenderID m = ReceiverID m
  | ErrEmptyContent => SenderID m <> ReceiverID m /\ ~ nonBlank (Content m)
  | ErrContentTooLong =>
      nonBlank (Content m) /\ (10000 < Z.of_nat (String.length (Content m)))%Z
  | ErrInvalidStatus =>
      (Z.of_nat (String.length (Content m)) <= 10000)%Z /\
      ~ In (Status m) validStatuses
  | _ => False
  end.
Proof.
  unfold Validate, nonBlank.
  destruct (String.eqb_spec (strings.TrimSpace (SenderID m)) "");
    [intros [= <-]; tauto |].
  destruct (String.eqb_spec (strings.TrimSpace (ReceiverID m)) "");
    [intros [= <-]; tauto |].
  destruct (String.eqb_spec (SenderID m) (ReceiverID m));
    [intros [= <-]; tauto |].
  destruct (String.eqb_spec (strings.TrimSpace (Content m)) "");
    [intros [= <-]; tauto |].
  destruct (Z.ltb_spec 10000 (Z.of_nat (String.length (Content m))));
    [intros [= <-]; tauto |].
  destruct (IsValidStatus (Status m)) eqn:Hst; simpl; [discriminate |].
  intros [= <-]. split; [lia |].
  intros Hin. apply IsValidStatus_In in Hin. congruence.
Qed.

(** Which error [Validate] returns, and when. *)
Lemma Validate_Some_iff (m : Message) (e : error) :
  Validate m = Some e <-> firstFailingCheck m e.
Proof.
  unfold firstFailingCheck, Validate, nonBlank.
  destruct (String.eqb_spec (strings.TrimSpace (SenderID m)) "") as [Hs | Hs].
  { split; [intros [= <-]; left; tauto |].
    intros [[-> _] | [H | [H | [H | [H | H]]]]]; [reflexivity | tauto ..]. }
  destruct (String.eqb_spec (strings.TrimSpace (ReceiverID m)) "") as [Hr | Hr].
  { split; [intros [= <-]; right; left; tauto |].
    intros [H | [[-> _] | [H | [H | [H | H]]]]]; [| reflexivity | ..]; tauto. }
  destruct (String.eqb_spec (SenderID m) (ReceiverID m)) as [Hsr | Hsr].
  { split; [intros [= <-]; right; right; left; tauto |].
    intros [H | [H | [[-> _] | [H | [H | H]]]]]; [| | reflexivity | ..]; tauto. }
  destruct (String.eqb_spec (strings.TrimSpace (Content m)) "") as [Hc | Hc].
  { split; [intros [= <-]; right; right; right; left; tauto |].
    intros [H | [H | [H | [[-> _] | [H | H]]]]];
      [| | | reflexivity | ..]; tauto. }
  destruct (Z.ltb_spec 10000 (Z.of_nat (String.length (Content m)))) as [Hl | Hl].
  { split; [intros [= <-]; right; right; right; right; left; tauto |].
    intros [H | [H | [H | [H | [[-> _] | H]]]]];
      [| | | | reflexivity |]; try tauto.
    exfalso. destruct H as (_ & _ & _ & _ & _ & H & _). lia. }
  destruct (IsValidStatus (Status m)) eqn:Hst; cbn [negb].
  - apply IsValidStatus_In in Hst. split; [discriminate |].
    intros [H | [H | [H | [H | [H | H]]]]]; try tauto.
    exfalso. destruct H as (_ & _ & _ & _ & _ & H). lia.
  - assert (Hno : ~ In (Status m) validStatuses).
    { intros Hin. apply IsValidStatus_In in Hin. congruence. }
    split; [intros [= <-]; do 5 right; tauto |].
    intros [H | [H | [H | [H | [H | [-> _]]]]]]; try tauto; try reflexivity.
    exfalso. destruct H as (_ & _ & _ & _ & _ & H). lia.
Qed.

(** C8, as the code has it: on messages whose identifiers have at most 100
    bytes, [Validate] accepts exactly those with a non-blank sender, a
    non-blank receiver other than the sender, a non-blank content of at most
    10000 bytes before trimming, and a status among sent, delivered, read;
    and it returns an error exactly when that error is the one of the first
    check the message fails, in the order sender, receiver, self-message,
    empty content, content too long, status. *)
Theorem Validate_accepts_iff (m : Message) :
  String.length (SenderID m) <= 100 ->
  String.length (ReceiverID m) <= 100 ->
  (Validate m = None <-> checkedConstraints m) /\
  (forall e : error, Validate m = Some e <-> firstFailingCheck m e).
Proof.
  intros Hs Hr. split.
  - rewrite Validate_None_iff. unfold checkedConstraints. intuition congruence.
  - intros e. apply Validate_Some_iff.
Qed.

Lemma Validate_accepts_iff_witness :
  String.length (SenderID hiBob) <= 100 /\
  String.length (ReceiverID hiBob) <= 100 /\
  (Validate hiBob = None <-> checkedConstraints hiBob) /\
  (forall e : error, Validate hiBob = Some e <-> firstFailingCheck hiBob e).
Proof.
  split; [simpl; lia |]. split; [simpl; lia |].
  apply (Validate_accepts_iff hiBob); simpl; lia.
Defined.

(** A message that fails two checks is refused with the error of the
    earlier one: a blank receiver and an unknown status give the error of
    the receiver. *)
Lemma Validate_earlier_check_wins :
  Validate (mkMessage "alice" " " (at_ 1) "hi" "seen") = Some ErrInvalidReceiverID /\
  ~ In "seen" validStatuses.
Proof.
  split; [reflexivity |]. unfold validStatuses. simpl.
  intros [H | [H | [H | []]]]; discriminate.
Qed.

Lemma paddedContent_trimmed :
  strings.TrimSpace (Content paddedContent) = "x".
Proof. vm_compute. reflexivity. Qed.

Lemma paddedContent_refused : Validate paddedContent = Some ErrContentTooLong.
Proof. vm_compute. reflexivity. Qed.

(** C8 as stated fails: a content of one byte followed by 10000 blanks meets
    every field constraint, its trimmed length being 1, and [Validate]
    refuses it as too long. *)
Lemma Validate_untrimmed_length_counterexample :
  ~ (Validate paddedContent = None <-> fieldConstraints paddedContent).
Proof.
  intros [_ H]. rewrite paddedContent_refused in H.
  enough (Some ErrContentTooLong = None) by discriminate.
  apply H. unfold fieldConstraints. rewrite paddedContent_trimmed.
  change (SenderID paddedContent) with "alice".
  change (ReceiverID paddedContent) with "bob".
  change (Status paddedContent) with "sent".
  cbn. repeat split; try discriminate; try lia; auto.
Qed.

(** The length of an identifier is no part of what [Validate] checks: a
    sender of 101 bytes is accepted. *)
Lemma Validate_long_identifier :
  String.length (SenderID longSender) = 101 /\ Validate longSender = None.
Proof. split; vm_compute; reflexivity. Qed.

(** ** Saving a message *)

Lemma revOnto_empty (s acc : string) :
  strings.revOnto s acc = "" -> s = "" /\ acc = "".
Proof.
  revert acc. induction s as [| c r IH]; simpl; intros acc H; [tauto |].
  apply IH in H. destruct H as [_ H]. discriminate.
Qed.

Lemma revOnto_allByte (c : ascii) (s acc : string) :
  allByte c (strings.revOnto s acc) = allByte c s && allByte c acc.
Proof.
  revert acc. induction s as [| x r IH]; simpl; intros acc; [reflexivity |].
  rewrite IH. simpl. destruct (Ascii.eqb x c), (allByte c r); reflexivity.
Qed.

Lemma trimLeftByte_empty (c : ascii) (s : string) :
  strings.trimLeftByte c s = "" -> allByte c s = true.
Proof.
  induction s as [| x r IH]; simpl; [reflexivity |].
  destruct (Ascii.eqb x c); simpl; [assumption | discriminate].
Qed.

Lemma trimLeftByte_allByte (c : ascii) (s : string) :
  allByte c (strings.trimLeftByte c s) = true -> allByte c s = true.
Proof.
  induction s as [| x r IH]; simpl; [reflexivity |].
  destruct (Ascii.eqb x c) eqn:E; simpl; [assumption |].
  rewrite E. discriminate.
Qed.

Lemma sqlTrim_empty (s : string) :
  postgres.sqlTrim s = "" -> allByte " " s = true.
Proof.
  unfold postgres.sqlTrim, strings.Trim, strings.rev. intros H.
  apply revOnto_empty in H. destruct H as [H _].
  apply trimLeftByte_empty in H. rewrite revOnto_allByte in H.
  apply andb_prop in H. destruct H as [H _].
  now apply trimLeftByte_allByte.
Qed.

Lemma blank_trimLeftSpace (s : string) :
  allByte " " s = true -> strings.trimLeftSpace s = "".
Proof.
  induction s as [| x r IH]; simpl; [reflexivity |].
  intros H. apply andb_prop in H. destruct H as [Hx Hr].
  apply Ascii.eqb_eq in Hx. subst x. simpl. auto.
Qed.

(** A string that Go finds non-blank is not empty for SQL's [TRIM] either. *)
Lemma nonBlank_sqlTrim (s : string) :
  nonBlank s -> (0 <? String.length (postgres.sqlTrim s)) = true.
Proof.
  intros H. destruct (postgres.sqlTrim s) eqn:E; [| reflexivity].
  exfalso. apply H. unfold strings.TrimSpace.
  now rewrite (blank_trimLeftSpace s (sqlTrim_empty s E)).
Qed.

(** A message that passes [Validate] passes the table's checks. *)
Lemma Validate_checks (m : Message) :
  Validate m = None -> postgres.checks m = true.
Proof.
  intros H. apply Validate_None_iff in H.
  destruct H as (Hs & Hr & Hne & Hc & _ & Hst).
  unfold postgres.checks.
  rewrite (nonBlank_sqlTrim _ Hs), (nonBlank_sqlTrim _ Hr), (nonBlank_sqlTrim _ Hc).
  apply String.eqb_neq in Hne. rewrite Hne. simpl.
  rewrite !andb_true_r.
  unfold validStatuses in Hst. simpl in Hst.
  destruct Hst as [<- | [<- | [<- | []]]]; reflexivity.
Qed.

Lemma keyOf_refl (m : Message) : keyOf m m = true.
Proof.
  unfold keyOf, postgres.sameKey.
  now rewrite !String.eqb_refl, Z.eqb_refl.
Qed.

(** What [SaveMessage] does with a message that passes [Validate]. *)
Lemma SaveMessage_valid (db : postgres.Table) (m : Message) :
  Validate m = None ->
  postgres.SaveMessage db m =
  if negb (storableMessage m)
  then (Some (Wrap "failed to save message: " (PqError "22021")), db)
  else if existsb (keyOf m) db then (Some ErrDuplicateMessage, db)
       else (None, db ++ [m]).
Proof.
  intros H. unfold postgres.SaveMessage, postgres.insertRow.
  fold (storableMessage m). fold (keyOf m).
  rewrite H, (Validate_checks m H).
  destruct (negb (storableMessage m)); [reflexivity |]. cbn [negb].
  destruct (existsb (keyOf m) db); reflexivity.
Qed.

(** What a save that returned nil has done. *)
Lemma SaveMessage_ok_inv (db db' : postgres.Table) (m : Message) :
  postgres.SaveMessage db m = (None, db') ->
  Validate m = None /\ storableMessage m = true /\
  existsb (keyOf m) db = false /\ db' = db ++ [m].
Proof.
  destruct (Validate m) as [e |] eqn:Hv;
    [unfold postgres.SaveMessage; rewrite Hv; discriminate |].
  rewrite (SaveMessage_valid db m Hv).
  destruct (storableMessage m); [| discriminate]. cbn [negb].
  destruct (existsb (keyOf m) db); [discriminate |].
  intros [= <-]. auto.
Qed.

Lemma filter_none {A : Type} (p : A -> bool) (l : list A) :
  existsb p l = false -> filter p l = [].
Proof.
  induction l as [| x r IH]; simpl; [reflexivity |].
  destruct (p x); simpl; [discriminate | exact IH].
Qed.

(** C1, as the code has it: when a first save of [m] has returned nil,
    saving [m] again returns [ErrDuplicateMessage] and leaves the table as
    the first save left it: the former rows followed by [m], which is the
    one row under its key. *)
Theorem SaveMessage_twice (db db1 : postgres.Table) (m : Message) :
  postgres.SaveMessage db m = (None, db1) ->
  postgres.SaveMessage db1 m = (Some ErrDuplicateMessage, db1) /\
  db1 = db ++ [m] /\
  filter (keyOf m) db1 = [m].
Proof.
  intros Hsave. apply SaveMessage_ok_inv in Hsave.
  destruct Hsave as (Hv & Hst & Hfresh & ->).
  rewrite (SaveMessage_valid _ m Hv), Hst, existsb_app. cbn [negb existsb].
  rewrite keyOf_refl, orb_true_r.
  repeat split. rewrite filter_app, (filter_none _ _ Hfresh). cbn [filter app].
  now rewrite keyOf_refl.
Qed.

Lemma SaveMessage_twice_witness :
  postgres.SaveMessage [readByBob; hiBob] hiBob
  = (Some ErrDuplicateMessage, [readByBob; hiBob]) /\
  [readByBob; hiBob] = [readByBob] ++ [hiBob] /\
  filter (keyOf hiBob) [readByBob; hiBob] = [hiBob].
Proof.
  apply (SaveMessage_twice [readByBob] [readByBob; hiBob] hiBob). reflexivity.
Defined.

(** C1 as stated fails: a content that begins with the byte 00 passes
    [Validate], the server cannot store it, and both saves return the
    wrapped error of the insert; nothing is stored. *)
Lemma SaveMessage_twice_counterexample :
  Validate nulContent = None /\
  postgres.SaveMessage [] nulContent
  = (Some (Wrap "failed to save message: " (PqError "22021")), []) /\
  ~ savedOnce [] nulContent.
Proof.
  split; [reflexivity |]. split; [reflexivity |].
  intros H. destruct (H eq_refl) as [Hdup _]. discriminate Hdup.
Qed.

(** A key that is already in the table under another content: the save is
    refused as a duplicate and the row that was there stays. *)
Lemma SaveMessage_keeps_first_row :
  postgres.SaveMessage [hiBob] (mkMessage "alice" "bob" (at_ 5) "other" "sent")
  = (Some ErrDuplicateMessage, [hiBob]).
Proof. reflexivity. Qed.

(** Whatever the table holds, a second save of a valid message of storable
    text is refused as a duplicate and changes nothing. *)
Lemma SaveMessage_again (db : postgres.Table) (m : Message) :
  Validate m = None -> storableMessage m = true ->
  postgres.SaveMessage (snd (postgres.SaveMessage db m)) m
  = (Some ErrDuplicateMessage, snd (postgres.SaveMessage db m)).
Proof.
  intros Hv Hst. rewrite (SaveMessage_valid db m Hv), Hst. cbn [negb].
  destruct (existsb (keyOf m) db) eqn:E; cbn [snd];
    rewrite (SaveMessage_valid _ m Hv), Hst; cbn [negb].
  - now rewrite E.
  - now rewrite existsb_app; cbn [existsb]; rewrite keyOf_refl, orb_true_r.
Qed.

(** ** A read message stays read *)

Lemma find_app_some {A : Type} (p : A -> bool) (l l' : list A) (x : A) :
  find p l = Some x -> find p (l ++ l') = Some x.
Proof.
  induction l as [| y r IH]; simpl; [discriminate |].
  destruct (p y); auto.
Qed.

Lemma find_map_fixed {A : Type} (p : A -> bool) (f : A -> A) (l : list A) (x : A) :
  (forall y, p (f y) = p y) -> f x = x ->
  find p l = Some x -> find p (map f l) = Some x.
Proof.
  intros Hp Hx. induction l as [| y r IH]; simpl; [discriminate |].
  rewrite Hp. destruct (p y); [| exact IH].
  intros [= ->]. now rewrite Hx.
Qed.

Lemma updateStatus_find (hit : Message -> bool) (status sender receiver : string)
    (t : Z) (db : postgres.Table) (r : Message) :
  hit r = false ->
  find (postgres.sameKey sender receiver t) db = Some r ->
  find (postgres.sameKey sender receiver t)
    (snd (postgres.updateStatus hit status db)) = Some r.
Proof.
  intros Hr. unfold postgres.updateStatus. simpl.
  apply find_map_fixed.
  - intros y. destruct (hit y); reflexivity.
  - now rewrite Hr.
Qed.

Lemma step_find (db : postgres.Table) (op : postgres.Op)
    (sender receiver : string) (t : Z) (r : Message) :
  Status r = MessageStatusRead ->
  find (postgres.sameKey sender receiver t) db = Some r ->
  find (postgres.sameKey sender receiver t) (postgres.step db op) = Some r.
Proof.
  intros Hread Hfind. destruct op as [m | | | msg | | | u c]; simpl; trivial.
  - unfold postgres.SaveMessage.
    destruct (Validate m); simpl; [assumption |].
    unfold postgres.insertRow.
    destruct (negb (_ && _)); simpl; [assumption |].
    destruct (negb (postgres.checks m)); simpl; [assumption |].
    destruct (existsb _ db); simpl; [assumption |].
    now apply find_app_some.
  - apply updateStatus_find; [| assumption].
    unfold postgres.upToUnread. rewrite Hread, String.eqb_refl. simpl.
    now rewrite andb_false_r.
  - unfold postgres.MarkChatAsRead.
    destruct (strings.Split c "---") as [| u1 [| u2 [| ? ?]]]; simpl; trivial.
    apply updateStatus_find; [| assumption].
    unfold postgres.unreadFrom. fold MessageStatusRead.
    rewrite Hread, String.eqb_refl. simpl. now rewrite andb_false_r.
Qed.

(** C3: a message the table holds with status read is still there with
    status read, unchanged, after any sequence of repository calls. *)
Theorem read_status_never_regresses (db : postgres.Table)
    (ops : list postgres.Op) (messageID : MessageID) (r : Message) :
  postgres.GetMessageByID db messageID = inl r ->
  Status r = MessageStatusRead ->
  postgres.GetMessageByID (postgres.run db ops) messageID = inl r.
Proof.
  intros Hget Hread. revert db Hget.
  induction ops as [| op ops IH]; intros db Hget; simpl; [assumption |].
  apply IH. unfold postgres.GetMessageByID in *.
  destruct (find _ db) as [x |] eqn:E; [| discriminate].
  injection Hget as <-.
  now rewrite (step_find db op _ _ _ x Hread E).
Qed.

Lemma read_status_never_regresses_witness :
  postgres.GetMessageByID
    (postgres.run [readByBob; hiBob]
       [postgres.OpMarkChatAsRead "bob" "alice---bob";
        postgres.OpSaveMessage readByBob;
        postgres.OpMarkMessagesUpToRead (mkMessageID "alice" "bob" (at_ 9))])
    (mkMessageID "alice" "bob" (at_ 3))
  = inl readByBob.
Proof.
  apply (read_status_never_regresses [readByBob; hiBob]); reflexivity.
Defined.

(** ** From a chat identifier back to its participants *)

Lemma Contains_tail (c : ascii) (r sub : string) :
  strings.Contains (String c r) sub = false ->
  strings.HasPrefix (String c r) sub = false /\ strings.Contains r sub = false.
Proof. simpl. intros H. now apply orb_false_elim in H. Qed.

(** No separator in [s]: [s] is the one piece. *)
Lemma genSplit_no_separator (sep s : string) :
  strings.Contains s sep = false -> strings.genSplit sep 0 s = (s, []).
Proof.
  induction s as [| c r IH]; [reflexivity |].
  intros H. apply Contains_tail in H. destruct H as [Hp Hr].
  cbn [strings.genSplit]. rewrite Hp, (IH Hr). reflexivity.
Qed.

(** The bytes of a separator still to be stepped over are dropped. *)
Lemma genSplit_skip (sep p s : string) :
  strings.genSplit sep (String.length p) (p ++ s)%string = strings.genSplit sep 0 s.
Proof. induction p as [| c r IH]; simpl; [reflexivity | exact IH]. Qed.

Lemma separatorFree_tail (c : ascii) (r : string) :
  separatorFree (String c r) -> separatorFree r.
Proof.
  unfold separatorFree. intros [Hc He]. apply Contains_tail in Hc.
  split; [tauto |]. destruct r; [reflexivity | exact He].
Qed.

Lemma prefix_cons (c1 c2 : ascii) (s1 s2 : string) :
  String.prefix (String c1 s1) (String c2 s2)
  = if ascii_dec c1 c2 then String.prefix s1 s2 else false.
Proof. reflexivity. Qed.

(** Inside a separator-free [a], no separator starts before the joining one. *)
Lemma separatorFree_no_early_prefix (c : ascii) (r rest : string) :
  separatorFree (String c r) ->
  strings.HasPrefix (String c (r ++ chatSep ++ rest)) chatSep = false.
Proof.
  unfold separatorFree, chatSep, strings.HasPrefix. intros [Hc He].
  apply Contains_tail in Hc. destruct Hc as [Hp _].
  unfold strings.HasPrefix in Hp. rewrite prefix_cons in *.
  destruct (ascii_dec "-" c) as [<- |]; [| reflexivity].
  destruct r as [| c2 r2]; [cbv in He; discriminate |].
  cbn [append]. rewrite prefix_cons in *.
  destruct (ascii_dec "-" c2) as [<- |]; [| reflexivity].
  destruct r2 as [| c3 r3]; [cbv in He; discriminate |].
  cbn [append]. rewrite prefix_cons in *.
  destruct (ascii_dec "-" c3) as [<- |]; [| reflexivity].
  destruct r3; discriminate.
Qed.

Lemma prefix_append (p s : string) : String.prefix p (p ++ s) = true.
Proof.
  induction p as [| c r IH]; [destruct s; reflexivity |].
  cbn [append]. rewrite prefix_cons.
  destruct (ascii_dec c c); [exact IH | congruence].
Qed.

Lemma genSplit_join (a b : string) :
  separatorFree a -> strings.Contains b chatSep = false ->
  strings.genSplit chatSep 0 (a ++ chatSep ++ b) = (a, [b]).
Proof.
  intros Ha Hb. induction a as [| c r IH].
  - change (("" ++ chatSep ++ b)%string) with (String "-" ("--" ++ b)).
    cbn [strings.genSplit].
    change (String "-" ("--" ++ b)) with ((chatSep ++ b)%string).
    unfold strings.HasPrefix. rewrite prefix_append.
    change (String.length chatSep - 1) with (String.length "--").
    now rewrite genSplit_skip, (genSplit_no_separator _ _ Hb).
  - change ((String c r ++ chatSep ++ b)%string)
      with (String c (r ++ chatSep ++ b)).
    cbn [strings.genSplit].
    rewrite (separatorFree_no_early_prefix c r b Ha).
    now rewrite (IH (separatorFree_tail c r Ha)).
Qed.

Lemma Split_join (a b : string) :
  separatorFree a -> separatorFree b ->
  strings.Split (a ++ chatSep ++ b) chatSep = [a; b].
Proof.
  intros Ha [Hb _]. unfold strings.Split. now rewrite genSplit_join.
Qed.

Lemma Split_ComputeChatID (a b : string) :
  separatorFree a -> separatorFree b ->
  strings.Split (ComputeChatID a b) chatSep
  = (if String.ltb a b then [a; b] else [b; a]).
Proof.
  intros Ha Hb. unfold ComputeChatID.
  destruct (String.ltb a b); now apply Split_join.
Qed.


(** Identifiers the separator keeps apart: when the separator occurs in
    neither identifier and neither ends with its byte, splitting
    [ComputeChatID a b] on the separator gives back exactly [a] and [b],
    smaller first, and [GetMessages] parses the chat identifier without
    error. *)
Lemma separatorFree_round_trip (a b : string) :
  separatorFree a -> separatorFree b ->
  strings.Split (ComputeChatID a b) chatSep
  = (if String.ltb a b then [a; b] else [b; a]) /\
  roundTrips a b /\
  forall (db : postgres.Table) (cursor : Time) (limit : Z),
    exists page, postgres.GetMessages db (ComputeChatID a b) cursor limit = inl page.
Proof.
  intros Ha Hb. pose proof (Split_ComputeChatID a b Ha Hb) as Hsplit.
  split; [exact Hsplit |]. split.
  - unfold roundTrips. rewrite Hsplit. destruct (String.ltb a b); auto.
  - intros db cursor limit. unfold postgres.GetMessages.
    change "---" with chatSep. rewrite Hsplit.
    destruct (String.ltb a b); eexists; reflexivity.
Qed.

Lemma separatorFree_round_trip_example :
  strings.Split (ComputeChatID "bob" "alice") chatSep = ["alice"; "bob"] /\
  roundTrips "bob" "alice".
Proof.
  destruct (separatorFree_round_trip "bob" "alice") as (H & Hr & _);
    [split; reflexivity .. |].
  split; [exact H | exact Hr].
Qed.

(** C6: the separator is not kept out of the identifiers the code accepts.
    ["a---b"] and ["c"] are accepted as the sender and the receiver of a
    message, and [SendMessage] stores it and answers 201; their chat
    identifier splits into three parts, not back into the two of them; the
    store's [GetMessages] refuses it whatever the table, the cursor and the
    limit, and the handler answers 500 to the receiver listing the chat.
    ["x-"] and ["y"] are accepted as well; their chat identifier splits in
    two, into ["x"] and ["-y"], and the message stored between them is not
    listed. *)
Theorem chatID_separator_conflict
    (parseRFC3339 : string -> option Time) (formatRFC3339 : Time -> string)
    (Atoi : string -> option Z) :
  (acceptedPair "a---b" "c" /\
   ComputeChatID "a---b" "c" = "a---b---c" /\
   strings.Split (ComputeChatID "a---b" "c") chatSep = ["a"; "b"; "c"] /\
   ~ roundTrips "a---b" "c" /\
   (forall (db : postgres.Table) (cursor : Time) (limit : Z),
      postgres.GetMessages db (ComputeChatID "a---b" "c") cursor limit
      = inr (ErrorText "invalid chat ID format: a---b---c")) /\
   SendMessage (publisher := constPublisher None) contentOfBody
     (mkHandler [] tt [])
     (requestOf "/api/v1/chats/c/messages" "a---b" "hi") (at_ 1)
   = (mkResponse StatusCreated
        (JSONSendMessage "a---b" "c" (at_ 1) "hi" "sent"),
      mkHandler [mkMessage "a---b" "c" (at_ 1) "hi" "sent"] tt
        [LogDebug "Message sent successfully"]) /\
   fst (GetMessages parseRFC3339 formatRFC3339 Atoi
          (mkHandler [mkMessage "a---b" "c" (at_ 1) "hi" "sent"] tt [])
          (requestOf "/api/v1/chats/a---b---c/messages" "c" ""))
   = writeErrorResponse StatusInternalServerError "Failed to get messages"
       "GET_MESSAGES_ERROR" "") /\
  (acceptedPair "x-" "y" /\
   strings.Split (ComputeChatID "x-" "y") chatSep = ["x"; "-y"] /\
   ~ roundTrips "x-" "y" /\
   postgres.GetMessages [mkMessage "x-" "y" (at_ 1) "hi" "sent"]
     (ComputeChatID "x-" "y") time.Zero 10 = inl []).
Proof.
  split.
  - split; [exists (at_ 1), "hi", "sent"; reflexivity |].
    split; [reflexivity |]. split; [reflexivity |].
    split; [intros [H | H]; vm_compute in H; discriminate |].
    split; [intros db cursor limit; reflexivity |].
    split; reflexivity.
  - split; [exists (at_ 1), "hi", "sent"; reflexivity |].
    split; [reflexivity |].
    split; [intros [H | H]; vm_compute in H; discriminate |].
    reflexivity.
Qed.

(** ** Who may list a chat *)

Lemma Contains_cons (c : ascii) (r sub : string) :
  strings.Contains r sub = true -> strings.Contains (String c r) sub = true.
Proof. simpl. intros ->. apply orb_true_r. Qed.

Lemma HasPrefix_Contains (s sub : string) :
  strings.HasPrefix s sub = true -> strings.Contains s sub = true.
Proof. destruct s; simpl; intros ->; reflexivity. Qed.

(** Every piece [strings.Split] returns occurs in the string that was
    split, the first one at its start. *)
Lemma genSplit_pieces (sep s : string) :
  forall (skip : nat) (p : string) (ps : list string),
    strings.genSplit sep skip s = (p, ps) ->
    (skip = 0 -> strings.HasPrefix s p = true) /\
    forall x, In x (p :: ps) -> strings.Contains s x = true.
Proof.
  induction s as [| c r IH]; intros skip p ps H.
  - assert (Hp : p = "" /\ ps = []) by (destruct skip; simpl in H; now inversion H).
    destruct Hp as [-> ->]. split; [reflexivity |].
    intros x [<- | []]. reflexivity.
  - destruct skip as [| k]; cbn [strings.genSplit] in H.
    + destruct (strings.HasPrefix (String c r) sep).
      * destruct (strings.genSplit sep (String.length sep - 1) r) as [p' ps'] eqn:E.
        inversion H; subst. destruct (IH _ _ _ E) as [_ Hin].
        split; [reflexivity |].
        intros x [<- | Hx]; [reflexivity | now apply Contains_cons, Hin].
      * destruct (strings.genSplit sep 0 r) as [p' ps'] eqn:E.
        inversion H; subst. destruct (IH _ _ _ E) as [Hpre Hin].
        assert (Hhead : strings.HasPrefix (String c r) (String c p') = true).
        { unfold strings.HasPrefix in *. rewrite prefix_cons.
          destruct (ascii_dec c c); [auto | congruence]. }
        split; [intros _; exact Hhead |].
        intros x [<- | Hx]; [now apply HasPrefix_Contains |].
        apply Contains_cons, Hin. now right.
    + destruct (IH _ _ _ H) as [_ Hin]. split; [discriminate |].
      intros x Hx. now apply Contains_cons, Hin.
Qed.

(** A participant encoded in the chat identifier passes the check. *)
Lemma participant_passes (userID chatID : string) :
  encodedParticipant userID chatID -> isUserParticipant userID chatID = true.
Proof.
  intros [other H]. unfold isUserParticipant, strings.Split in H |- *.
  destruct (strings.genSplit chatSep 0 chatID) as [p ps] eqn:E.
  destruct (genSplit_pieces _ _ _ _ _ E) as [_ Hin].
  apply Hin. destruct H as [H | H]; rewrite H; simpl; auto.
Qed.

(** A user the check refuses gets 403, and neither the repository nor the
    publisher nor the logger is touched. *)
Lemma GetMessages_forbidden {R P : Type} `{MessageRepository R}
    (parseRFC3339 : string -> option Time)
    (formatRFC3339 : Time -> string) (Atoi : string -> option Z)
    (h : MessageHandler R P) (r : Request) (chatID : string) (user : UserContext) :
  pathParam (Path r) = Some chatID -> User r = Some user ->
  isUserParticipant (UserID user) chatID = false ->
  GetMessages parseRFC3339 formatRFC3339 Atoi h r
  = (writeErrorResponse StatusForbidden "Access denied" "ACCESS_DENIED"
       "User is not a participant in this chat", h).
Proof.
  intros Hp Hu Hno. unfold GetMessages. now rewrite Hp, Hu, Hno.
Qed.

(** C7 fails on the code: the check is a substring test.  User ["ali"] is
    neither participant of chat ["alice---bob"], passes the check, and is
    served the messages of alice and bob. *)
Theorem non_participant_is_served
    (parseRFC3339 : string -> option Time) (formatRFC3339 : Time -> string)
    (Atoi : string -> option Z) :
  ~ encodedParticipant "ali" "alice---bob" /\
  isUserParticipant "ali" "alice---bob" = true /\
  fst (GetMessages parseRFC3339 formatRFC3339 Atoi
         (mkHandler [hiBob] tt [])
         (requestOf "/api/v1/chats/alice---bob/messages" "ali" ""))
  = mkResponse StatusOK (JSONGetMessages [hiBob] "" false).
Proof.
  split; [| split; reflexivity].
  intros [other [H | H]]; vm_compute in H; discriminate.
Qed.

(** ** Publishing after persisting *)

(** C4: once the message is saved (the cascade applied), the handler answers
    201 (200) with the stored message (the number of rows updated) and keeps
    the repository as the save (the cascade) left it, whatever the publisher
    returns, an error included. *)
Theorem publish_result_is_ignored {R P : Type} `{MessageRepository R}
    `{MessagePublisher P}
    (decodeSend : string -> SendMessageRequest + error)
    (decodeStatus : string -> UpdateStatusRequest + error)
    (h : MessageHandler R P) (r : Request) (now : Time) (user : UserContext) :
  User r = Some user ->
  (forall (receiverID : string) (req : SendMessageRequest) (repo' : R),
      pathParam (Path r) = Some receiverID ->
      decodeSend (Body r) = inl req ->
      let message :=
        mkMessage (UserID user) receiverID (time.UTC now) (reqContent req) "sent" in
      Validate message = None ->
      repoSaveMessage (MessageRepo h) message = (None, repo') ->
      fst (SendMessage decodeSend h r now)
      = mkResponse StatusCreated
          (JSONSendMessage (UserID user) receiverID (time.UTC now)
             (reqContent req) "sent") /\
      MessageRepo (snd (SendMessage decodeSend h r now)) = repo') /\
  (forall (req : UpdateStatusRequest) (affected : Z) (repo' : R),
      decodeStatus (Body r) = inl req ->
      idReceiverID (reqMessageID req) = UserID user ->
      repoMarkMessagesUpToRead (MessageRepo h) (reqMessageID req)
      = ((affected, None), repo') ->
      fst (UpdateMessageStatus decodeStatus h r now)
      = mkResponse StatusOK (JSONUpdateStatus affected) /\
      MessageRepo (snd (UpdateMessageStatus decodeStatus h r now)) = repo').
Proof.
  intros Hu. split.
  - intros receiverID req repo' Hp Hd message Hv Hs.
    unfold SendMessage. rewrite Hp, Hu, Hd. fold message. rewrite Hv, Hs.
    cbn [Publisher MessageRepo Logger].
    destruct (PublishMessage (Publisher h) message) as [[err |] pub'];
      split; reflexivity.
  - intros req affected repo' Hd Hr Hm.
    unfold UpdateMessageStatus. rewrite Hu, Hd, Hr, String.eqb_refl, Hm.
    cbn [negb Publisher MessageRepo Logger].
    destruct (PublishStatusUpdate (Publisher h) (UserID user) _) as [[err |] pub'];
      split; reflexivity.
Qed.

Lemma publish_result_is_ignored_witness :
  (fst (SendMessage (publisher := failingPublisher) contentOfBody
          (mkHandler [] tt [])
          (requestOf "/api/v1/chats/bob/messages" "alice" "hi") (at_ 5))
   = mkResponse StatusCreated (JSONSendMessage "alice" "bob" (at_ 5) "hi" "sent") /\
   MessageRepo (snd (SendMessage (publisher := failingPublisher) contentOfBody
                       (mkHandler [] tt [])
                       (requestOf "/api/v1/chats/bob/messages" "alice" "hi") (at_ 5)))
   = [hiBob]) /\
  (fst (UpdateMessageStatus (publisher := failingPublisher)
          (alwaysID (mkMessageID "alice" "bob" (at_ 5)))
          (mkHandler [hiBob] tt [])
          (requestOf "/api/v1/messages/status" "bob" "") (at_ 7))
   = mkResponse StatusOK (JSONUpdateStatus 1) /\
   MessageRepo (snd (UpdateMessageStatus (publisher := failingPublisher)
                       (alwaysID (mkMessageID "alice" "bob" (at_ 5)))
                       (mkHandler [hiBob] tt [])
                       (requestOf "/api/v1/messages/status" "bob" "") (at_ 7)))
   = [postgres.setStatus "read" hiBob]).
Proof.
  split.
  - destruct (publish_result_is_ignored (H := postgresRepository)
                (H0 := failingPublisher) contentOfBody
                (alwaysID (mkMessageID "alice" "bob" (at_ 5)))
                (mkHandler [] tt [])
                (requestOf "/api/v1/chats/bob/messages" "alice" "hi") (at_ 5)
                (userNamed "alice") eq_refl) as [Hsend _].
    apply (Hsend "bob" {| reqContent := "hi" |} [hiBob]); reflexivity.
  - destruct (publish_result_is_ignored (H := postgresRepository)
                (H0 := failingPublisher) contentOfBody
                (alwaysID (mkMessageID "alice" "bob" (at_ 5)))
                (mkHandler [hiBob] tt [])
                (requestOf "/api/v1/messages/status" "bob" "") (at_ 7)
                (userNamed "bob") eq_refl) as [_ Hupdate].
    apply (Hupdate {| reqMessageID := mkMessageID "alice" "bob" (at_ 5) |} 1%Z
             [postgres.setStatus "read" hiBob]); reflexivity.
Defined.

(** With the publisher failing, the send is answered 201 all the same; the
    error goes to the logger and nowhere else. *)
Lemma failed_publish_is_logged :
  SendMessage (publisher := failingPublisher) contentOfBody
    (mkHandler [] tt []) (requestOf "/api/v1/chats/bob/messages" "alice" "hi")
    (at_ 5)
  = (mkResponse StatusCreated (JSONSendMessage "alice" "bob" (at_ 5) "hi" "sent"),
     mkHandler [hiBob] tt
       [LogError "Failed to publish message" natsDown;
        LogDebug "Message sent successfully"]).
Proof. reflexivity. Qed.

(** A failure of the repository is not ignored: a duplicate is answered 409
    and nothing is published. *)
Lemma SendMessage_duplicate :
  SendMessage (publisher := failingPublisher) contentOfBody
    (mkHandler [hiBob] tt []) (requestOf "/api/v1/chats/bob/messages" "alice" "hi")
    (at_ 5)
  = (writeErrorResponse StatusConflict "Duplicate message" "DUPLICATE_MESSAGE"
       "Message already exists",
     mkHandler [hiBob] tt []).
Proof. reflexivity. Qed.

(** ** The message a send stores *)

(** C10: when a send is accepted (answered 201), the table has gained
    exactly one row, built by the handler: sender from the user context,
    receiver from the path, content from the request, status sent, and as
    creation time the clock reading of the call, in UTC. *)
Theorem SendMessage_builds_the_message {P : Type} `{MessagePublisher P}
    (decodeSend : string -> SendMessageRequest + error)
    (h : MessageHandler postgres.Table P) (r : Request) (now : Time) :
  StatusCode (fst (SendMessage decodeSend h r now)) = StatusCreated ->
  exists (receiverID : string) (user : UserContext) (req : SendMessageRequest),
    pathParam (Path r) = Some receiverID /\
    User r = Some user /\
    decodeSend (Body r) = inl req /\
    MessageRepo (snd (SendMessage decodeSend h r now))
    = MessageRepo h ++ [mkMessage (UserID user) receiverID
                          (mkTime (instant now) UTCLoc) (reqContent req) "sent"] /\
    fst (SendMessage decodeSend h r now)
    = mkResponse StatusCreated
        (JSONSendMessage (UserID user) receiverID (mkTime (instant now) UTCLoc)
           (reqContent req) "sent").
Proof.
  unfold SendMessage.
  destruct (pathParam (Path r)) as [receiverID |]; [| discriminate].
  destruct (User r) as [user |]; [| discriminate].
  destruct (decodeSend (Body r)) as [req | err]; [| discriminate].
  destruct (Validate _) as [err |] eqn:Hv;
    [destruct (IsValidationError err); discriminate |].
  cbn [repoSaveMessage postgresRepository].
  rewrite (SaveMessage_valid _ _ Hv).
  destruct (negb (storableMessage _)); [discriminate |].
  destruct (existsb _ (MessageRepo h)); [discriminate |].
  cbn [MessageRepo Publisher Logger].
  destruct (PublishMessage (Publisher h) _) as [[err |] pub']; intros _;
    exists receiverID, user, req; repeat split; reflexivity.
Qed.

Lemma SendMessage_builds_the_message_witness :
  exists (receiverID : string) (user : UserContext) (req : SendMessageRequest),
    pathParam "/api/v1/chats/bob/messages" = Some receiverID /\
    Some (userNamed "alice") = Some user /\
    contentOfBody "hi" = inl req /\
    MessageRepo (snd (SendMessage (publisher := failingPublisher) contentOfBody
                        (mkHandler [readByBob] tt [])
                        (requestOf "/api/v1/chats/bob/messages" "alice" "hi")
                        (mkTime 5 LocalLoc)))
    = [readByBob] ++ [mkMessage (UserID user) receiverID (mkTime 5 UTCLoc)
                        (reqContent req) "sent"] /\
    fst (SendMessage (publisher := failingPublisher) contentOfBody
           (mkHandler [readByBob] tt [])
           (requestOf "/api/v1/chats/bob/messages" "alice" "hi")
           (mkTime 5 LocalLoc))
    = mkResponse StatusCreated
        (JSONSendMessage (UserID user) receiverID (mkTime 5 UTCLoc)
           (reqContent req) "sent").
Proof.
  apply (SendMessage_builds_the_message (H := failingPublisher) contentOfBody
           (mkHandler [readByBob] tt [])
           (requestOf "/api/v1/chats/bob/messages" "alice" "hi")
           (mkTime 5 LocalLoc)).
  reflexivity.
Defined.

(** ** Sorting, greatest key first *)

Section SortDescFacts.
Context {A : Type} (key : A -> Z).

Lemma insertDesc_perm (x : A) (l : list A) :
  Permutation (insertDesc key x l) (x :: l).
Proof.
  induction l as [| y r IH]; simpl; [apply Permutation_refl |].
  destruct (key y <=? key x)%Z; [apply Permutation_refl |].
  eapply Permutation_trans; [apply perm_skip, IH | apply perm_swap].
Qed.

Lemma sortDesc_perm (l : list A) : Permutation (sortDesc key l) l.
Proof.
  induction l as [| x r IH]; simpl; [constructor |].
  eapply Permutation_trans; [apply insertDesc_perm | now apply perm_skip].
Qed.


Lemma insertDesc_descending (x : A) (l : list A) :
  descending key l -> descending key (insertDesc key x l).
Proof.
  induction l as [| y r IH]; simpl; [tauto |].
  intros [Hy Hr]. destruct (Z.leb_spec (key y) (key x)) as [Hle | Hlt].
  - simpl. tauto.
  - specialize (IH Hr). cbn [descending]. split; [| exact IH].
    destruct r as [| z r']; simpl; [lia |].
    destruct (key z <=? key x)%Z; [lia | exact Hy].
Qed.

Lemma sortDesc_descending (l : list A) : descending key (sortDesc key l).
Proof.
  induction l as [| x r IH]; simpl; [exact I | now apply insertDesc_descending].
Qed.

(** In a descending list the head is a greatest element. *)
Lemma descending_head_max (x : A) (l : list A) :
  descending key (x :: l) -> Forall (fun y => (key y <= key x)%Z) l.
Proof.
  revert x. induction l as [| y r IH]; intros x H; [constructor |].
  destruct H as [Hxy Hr]. constructor; [exact Hxy |].
  eapply Forall_impl; [| apply (IH y Hr)]. simpl. intros z Hz. lia.
Qed.



(** The first element of the sorted list is in the list and no element of
    the list has a greater key. *)
Lemma sortDesc_head (l : list A) (m : A) (rest : list A) :
  sortDesc key l = m :: rest ->
  In m l /\ forall m', In m' l -> (key m' <= key m)%Z.
Proof.
  intros E. pose proof (sortDesc_perm l) as Hperm.
  pose proof (sortDesc_descending l) as Hdesc. rewrite E in Hperm, Hdesc.
  split.
  - apply (Permutation_in _ Hperm). now left.
  - intros m' Hin. apply (Permutation_in _ (Permutation_sym Hperm)) in Hin.
    destruct Hin as [<- | Hin]; [lia |].
    apply descending_head_max in Hdesc. rewrite Forall_forall in Hdesc. auto.
Qed.

Lemma sortDesc_nonempty (l : list A) : l <> [] -> sortDesc key l <> [].
Proof.
  intros Hl E. pose proof (sortDesc_perm l) as Hperm. rewrite E in Hperm.
  apply Permutation_nil in Hperm. contradiction.
Qed.





End SortDescFacts.


(** The conversation is what the query's [WHERE] clause selects. *)
Lemma exchanged_between (a b : string) (m : Message) :
  (if exchanged_dec a b m then true else false) = postgres.between a b m.
Proof.
  unfold postgres.between.
  destruct (exchanged_dec a b m) as [H | H];
    destruct (String.eqb_spec (SenderID m) a), (String.eqb_spec (ReceiverID m) b),
      (String.eqb_spec (SenderID m) b), (String.eqb_spec (ReceiverID m) a);
    cbn [andb orb]; try reflexivity; exfalso; unfold exchanged in H; tauto.
Qed.

Lemma conversation_between (db : postgres.Table) (a b : string) :
  conversation db a b = filter (postgres.between a b) db.
Proof. apply filter_ext. intros m. apply exchanged_between. Qed.

Lemma conversation_In (db : postgres.Table) (a b : string) (m : Message) :
  In m (conversation db a b) <-> In m db /\ exchanged a b m.
Proof.
  unfold conversation. rewrite filter_In.
  destruct (exchanged_dec a b m); intuition discriminate.
Qed.


(** A column value read and sent back is the column value. *)
Lemma timestampOf_fromTimestamp (ts : Z) :
  postgres.timestampOf (postgres.fromTimestamp ts) = ts.
Proof.
  unfold postgres.timestampOf, postgres.wallClock, postgres.fromTimestamp,
    postgres.roundMicro.
  cbn [instant loc postgres.zoneOffset].
  replace (1000 * ts + 1000000000 * 0)%Z with (ts * 1000)%Z by lia.
  rewrite Z.div_mul, Z.mod_mul by lia. reflexivity.
Qed.

Lemma created_at_scan (m : Message) :
  postgres.created_at (postgres.scan m) = postgres.created_at m.
Proof. apply timestampOf_fromTimestamp. Qed.

Lemma createdInstant_scan (m : Message) :
  createdInstant (postgres.scan m) = (1000 * postgres.created_at m)%Z.
Proof. reflexivity. Qed.

(** What a query reads of a row: its texts as they are, and as creation
    time the column value, at offset zero. *)
Lemma scan_fields (m : Message) :
  SenderID (postgres.scan m) = SenderID m /\
  ReceiverID (postgres.scan m) = ReceiverID m /\
  Content (postgres.scan m) = Content m /\
  Status (postgres.scan m) = Status m /\
  CreatedAt (postgres.scan m) = mkTime (1000 * postgres.created_at m) UTCLoc.
Proof. repeat split. Qed.

(** A creation time in UTC of whole microseconds is read back as it was
    written. *)
Lemma scan_exact (m : Message) :
  loc (CreatedAt m) = UTCLoc -> (instant (CreatedAt m) mod 1000 = 0)%Z ->
  postgres.scan m = m.
Proof.
  destruct m as [s r [i l] c st]. cbn [CreatedAt loc instant].
  intros -> Hmod.
  unfold postgres.scan, postgres.created_at, postgres.timestampOf,
    postgres.wallClock, postgres.roundMicro, postgres.fromTimestamp.
  cbn [CreatedAt SenderID ReceiverID Content Status instant loc
       postgres.zoneOffset].
  replace (i + 1000000000 * 0)%Z with i by lia.
  rewrite Hmod. cbn [Z.ltb Z.compare].
  do 2 f_equal. pose proof (Z.div_mod i 1000). lia.
Qed.



Lemma effectiveLimit_in_range (L : Z) :
  (1 <= L <= 100)%Z -> effectiveLimit L = L.
Proof.
  intros H. unfold effectiveLimit.
  destruct (Z.leb_spec L 0), (Z.ltb_spec 100 L); simpl; lia.
Qed.





(** The pages of the sample table for alice and bob, among the rows of three
    conversations: the two newer messages, then the oldest, then nothing. *)
Lemma GetMessages_two_pages :
  conversationMessages sampleTable "alice" "bob"
  = [mkMessage "alice" "bob" (at_ 1) "hello bob" "read";
     mkMessage "bob" "alice" (at_ 3) "hello alice" "delivered";
     mkMessage "bob" "alice" (at_ 6) "are you there" "sent"] /\
  postgres.GetMessages sampleTable "alice---bob" time.Zero 2
  = inl [mkMessage "bob" "alice" (at_ 6) "are you there" "sent";
         mkMessage "bob" "alice" (at_ 3) "hello alice" "delivered"] /\
  postgres.GetMessages sampleTable "alice---bob" (at_ 3) 2
  = inl [mkMessage "alice" "bob" (at_ 1) "hello bob" "read"] /\
  postgres.GetMessages sampleTable "alice---bob" (at_ 1) 2 = inl [].
Proof. repeat split; reflexivity. Qed.

(** The cursor is compared as the column keeps times, by the wall clock:
    with the message of 3 microseconds as the last of a page, a cursor of
    the same instant written two hours east of UTC selects every row. *)
Lemma GetMessages_cursor_wall_clock :
  instant (mkTime 3000 LocalLoc) = instant (at_ 3) /\
  postgres.GetMessages sampleTable "alice---bob" (mkTime 3000 LocalLoc) 2
  = postgres.GetMessages sampleTable "alice---bob" time.Zero 2.
Proof. split; reflexivity. Qed.


(** With such a tie and a limit of 1, the second page is empty: the message
    of equal time is never returned. *)
Lemma GetMessages_tie_is_skipped :
  postgres.SaveMessage [hiBob] hiAlice = (None, [hiBob; hiAlice]) /\
  postgres.GetMessages [hiBob; hiAlice] "alice---bob" time.Zero 1 = inl [hiBob] /\
  postgres.GetMessages [hiBob; hiAlice] "alice---bob" (CreatedAt hiBob) 1 = inl [].
Proof. repeat split; reflexivity. Qed.

(** Two instants less than a microsecond apart are one creation time in the
    table: the second message from alice to bob is refused as a
    duplicate. *)
Lemma SaveMessage_same_microsecond :
  postgres.SaveMessage [hiBob]
    (mkMessage "alice" "bob" (mkTime 5400 UTCLoc) "again" "sent")
  = (Some ErrDuplicateMessage, [hiBob]).
Proof. reflexivity. Qed.

(** A limit out of range is replaced by 50, not applied. *)
Lemma GetMessages_limit_zero :
  postgres.GetMessages [hiBob] "alice---bob" time.Zero 0 = inl [hiBob].
Proof. reflexivity. Qed.

(** A cursor equal to the zero time is no cursor: the page is served again. *)
Lemma GetMessages_zero_cursor_repeats :
  postgres.GetMessages [atZero] "alice---bob" time.Zero 1 = inl [atZero] /\
  postgres.GetMessages [atZero] "alice---bob" (CreatedAt atZero) 1 = inl [atZero].
Proof. split; reflexivity. Qed.

(** [GetMessages] asks for two parts, not for two non-empty parts. *)
Lemma GetMessages_empty_parts (db : postgres.Table) :
  postgres.GetMessages db "---" time.Zero 10
  = inl (map postgres.scan
           (firstn 10 (postgres.orderByCreatedAtDesc (conversation db "" "")))).
Proof. rewrite conversation_between. reflexivity. Qed.

(** ** Chat sessions *)

Lemma participantsOf_In (db : postgres.Table) (u p : string) :
  In p (postgres.participantsOf db u) <-> exchangedWith db u p.
Proof.
  unfold postgres.participantsOf, exchangedWith.
  rewrite nodup_In, in_map_iff. split.
  - intros [m [Hp Hin]]. apply filter_In in Hin. destruct Hin as [Hin Hw].
    exists m. split; [exact Hin |]. revert Hp Hw.
    destruct (String.eqb_spec (SenderID m) u) as [Hs | Hs]; intros Hp Hw;
      [left; tauto |].
    right. simpl in Hw. split; [exact Hp | now apply String.eqb_eq].
  - intros [m [Hin Hm]]. exists m. split.
    + destruct (String.eqb_spec (SenderID m) u) as [Hs | Hs];
        destruct Hm as [[Hs' Hr'] | [Hs' Hr']]; congruence.
    + apply filter_In. split; [exact Hin |].
      destruct Hm as [[<- _] | [_ <-]]; rewrite String.eqb_refl;
        [reflexivity | apply orb_true_r].
Qed.

Lemma exchangedWith_conversation (db : postgres.Table) (u p : string) :
  exchangedWith db u p -> conversation db u p <> [].
Proof.
  intros [m [Hin Hm]] E.
  assert (Hc : In m (conversation db u p)) by (apply conversation_In; now split).
  rewrite E in Hc. contradiction.
Qed.

Lemma unreadFrom_count (db : postgres.Table) (u p : string) :
  filter (postgres.unreadFrom p u) db = unreadMessages db u p.
Proof.
  apply filter_ext. intros m. unfold postgres.unreadFrom, MessageStatusRead.
  now rewrite (andb_comm (String.eqb (SenderID m) p)).
Qed.

Lemma sessionFor_participant (db : postgres.Table) (u p : string) :
  OtherParticipant (postgres.sessionFor db u p) = p /\
  ChatID (postgres.sessionFor db u p) = ComputeChatID u p /\
  UnreadCount (postgres.sessionFor db u p)
  = Z.of_nat (length (unreadMessages db u p)).
Proof.
  unfold postgres.sessionFor. rewrite unreadFrom_count.
  destruct (firstn 1 _); repeat split; reflexivity.
Qed.

(** The last-message fields of a session are those of a most recent message
    of the conversation, the time as the table keeps it. *)
Lemma sessionFor_last (db : postgres.Table) (u p : string) :
  exchangedWith db u p ->
  exists m : Message,
    mostRecent db u p m /\
    LastMessage (postgres.sessionFor db u p) = Content m /\
    LastMessageBy (postgres.sessionFor db u p) = SenderID m /\
    LastMessageAt (postgres.sessionFor db u p) = CreatedAt (postgres.scan m).
Proof.
  intros Hex. apply exchangedWith_conversation in Hex.
  apply (sortDesc_nonempty postgres.created_at) in Hex.
  unfold postgres.sessionFor, postgres.orderByCreatedAtDesc.
  rewrite <- conversation_between.
  destruct (sortDesc postgres.created_at (conversation db u p))
    as [| m rest] eqn:E; [contradiction |].
  exists m. split; [| repeat split; reflexivity].
  exact (sortDesc_head postgres.created_at _ _ _ E).
Qed.

(** C9, as the code has it: [GetChatSessions] returns one session for each
    user the given user has exchanged messages with and no other; a session
    counts the unread messages sent to the user by the other participant and
    carries content, author and time, as the table keeps it, of a most
    recent message between the two, whichever the direction: of the single
    most recent one when there is one; the sessions come in descending order
    of that time. *)
Theorem GetChatSessions_contract (db : postgres.Table) (u : string) :
  let sessions := postgres.GetChatSessions db u in
  NoDup (map OtherParticipant sessions) /\
  (forall p, In p (map OtherParticipant sessions) <-> exchangedWith db u p) /\
  (forall s, In s sessions ->
     ChatID s = ComputeChatID u (OtherParticipant s) /\
     UnreadCount s
     = Z.of_nat (length (unreadMessages db u (OtherParticipant s))) /\
     (exists m : Message,
        mostRecent db u (OtherParticipant s) m /\
        LastMessage s = Content m /\
        LastMessageBy s = SenderID m /\
        LastMessageAt s = CreatedAt (postgres.scan m)) /\
     (forall m : Message,
        singleMostRecent db u (OtherParticipant s) m ->
        LastMessage s = Content m /\
        LastMessageBy s = SenderID m /\
        LastMessageAt s = CreatedAt (postgres.scan m))) /\
  descending lastMessageAt sessions.
Proof.
  intros sessions.
  assert (Hperm : Permutation sessions
                    (map (postgres.sessionFor db u) (postgres.participantsOf db u)))
    by apply sortDesc_perm.
  assert (Hnames : Permutation (map OtherParticipant sessions)
                     (postgres.participantsOf db u)).
  { eapply Permutation_trans; [apply Permutation_map, Hperm |].
    rewrite map_map. erewrite map_ext; [rewrite map_id; apply Permutation_refl |].
    intros p. apply sessionFor_participant. }
  split; [| split; [| split]].
  - eapply Permutation_NoDup; [apply Permutation_sym, Hnames |].
    apply NoDup_nodup.
  - intros p. rewrite <- participantsOf_In. split; intros Hin.
    + exact (Permutation_in _ Hnames Hin).
    + exact (Permutation_in _ (Permutation_sym Hnames) Hin).
  - intros s Hin. apply (Permutation_in _ Hperm) in Hin.
    apply in_map_iff in Hin. destruct Hin as [p [<- Hp]].
    destruct (sessionFor_participant db u p) as [-> [Hchat Hunread]].
    split; [exact Hchat |]. split; [exact Hunread |].
    apply participantsOf_In in Hp.
    destruct (sessionFor_last db u p Hp) as (m & Hm & Hc & Hb & Ht).
    split; [now exists m |].
    intros m' [_ Honly]. now rewrite <- (Honly m Hm).
  - apply sortDesc_descending.
Qed.

(** The sessions of alice in the sample table: bob first, whose message is
    the latest and who has two unread messages for her, then dave, then
    carol. *)
Lemma GetChatSessions_sample :
  postgres.GetChatSessions sampleTable "alice"
  = [ mkChatSession "alice---bob" "bob" (at_ 6) 2 "are you there" "bob";
      mkChatSession "alice---dave" "dave" (at_ 4) 0 "ping" "alice";
      mkChatSession "alice---carol" "carol" (at_ 2) 1 "lunch?" "carol" ].
Proof. reflexivity. Qed.

Lemma mostRecent_tie :
  mostRecent [hiBob; hiAlice] "alice" "bob" hiBob /\
  mostRecent [hiBob; hiAlice] "alice" "bob" hiAlice.
Proof.
  change (mostRecent [hiBob; hiAlice] "alice" "bob" hiBob)
    with (In hiBob [hiBob; hiAlice] /\
          forall m', In m' [hiBob; hiAlice] ->
                     (postgres.created_at m' <= postgres.created_at hiBob)%Z).
  change (mostRecent [hiBob; hiAlice] "alice" "bob" hiAlice)
    with (In hiAlice [hiBob; hiAlice] /\
          forall m', In m' [hiBob; hiAlice] ->
                     (postgres.created_at m' <= postgres.created_at hiAlice)%Z).
  split; (split; [simpl; auto |]);
    intros m' [<- | [<- | []]]; vm_compute; discriminate.
Qed.

(** C9 as stated fails: alice and bob each sent a message at the same
    instant; both are most recent, none is the single most recent one, and
    the session carries the message of alice. *)
Lemma GetChatSessions_tie_counterexample :
  postgres.run [] [postgres.OpSaveMessage hiBob; postgres.OpSaveMessage hiAlice]
  = [hiBob; hiAlice] /\
  postgres.GetChatSessions [hiBob; hiAlice] "alice"
  = [mkChatSession "alice---bob" "bob" (at_ 5) 1 "hi" "alice"] /\
  ~ sessionsAsSpecified [hiBob; hiAlice] "alice".
Proof.
  split; [reflexivity |]. split; [reflexivity |].
  intros (_ & _ & H & _).
  destruct (H (mkChatSession "alice---bob" "bob" (at_ 5) 1 "hi" "alice"))
    as (_ & m & [_ Honly] & _); [left; reflexivity |].
  cbn [OtherParticipant] in Honly.
  destruct mostRecent_tie as [Hb Ha].
  pose proof (Honly hiBob Hb) as E1. pose proof (Honly hiAlice Ha) as E2.
  rewrite <- E2 in E1. discriminate E1.
Qed.

(** What counts as most recent is the creation time the table keeps, a wall
    clock: a message written at 1 microsecond two hours east of UTC is the
    last message of the chat, before one written later, at 3 microseconds
    in UTC. *)
Lemma GetChatSessions_wall_clock :
  postgres.GetChatSessions
    [mkMessage "alice" "bob" (mkTime 1000 LocalLoc) "earlier" "sent";
     mkMessage "bob" "alice" (at_ 3) "later" "sent"] "alice"
  = [mkChatSession "alice---bob" "bob" (at_ 7200000001) 1 "earlier" "alice"].
Proof. reflexivity. Qed.

(* ========================================================================= *)
(** * Further properties of the repository *)

(** ** The read cascade *)

Lemma upToUnread_after (msg : MessageID) (m : Message) :
  postgres.upToUnread msg
    (if postgres.upToUnread msg m then postgres.setStatus MessageStatusRead m
     else m) = false.
Proof.
  destruct (postgres.upToUnread msg m) eqn:E; [| exact E].
  unfold postgres.upToUnread. cbn [postgres.setStatus Status].
  rewrite String.eqb_refl. apply andb_false_r.
Qed.

Lemma unreadFrom_after (sender receiver : string) (m : Message) :
  postgres.unreadFrom sender receiver
    (if postgres.unreadFrom sender receiver m then postgres.setStatus "read" m
     else m) = false.
Proof.
  destruct (postgres.unreadFrom sender receiver m) eqn:E; [| exact E].
  unfold postgres.unreadFrom. cbn [postgres.setStatus Status].
  rewrite String.eqb_refl. apply andb_false_r.
Qed.

(** Once an update has run, no row is left for it to change. *)
Lemma updateStatus_settled (hit : Message -> bool) (status : string)
    (db : postgres.Table) :
  (forall m, hit (if hit m then postgres.setStatus status m else m) = false) ->
  filter hit (snd (postgres.updateStatus hit status db)) = [] /\
  snd (postgres.updateStatus hit status
         (snd (postgres.updateStatus hit status db)))
  = snd (postgres.updateStatus hit status db).
Proof.
  intros Hafter. unfold postgres.updateStatus. cbn [snd].
  induction db as [| m r [IHf IHm]]; [split; reflexivity |].
  cbn [map filter]. rewrite (Hafter m). split; [exact IHf |].
  now rewrite IHm.
Qed.

Lemma cascade_settled (db : postgres.Table) (msg : MessageID) :
  postgres.MarkMessagesUpToRead
    (snd (postgres.MarkMessagesUpToRead db msg)) msg
  = (0%Z, snd (postgres.MarkMessagesUpToRead db msg)).
Proof.
  unfold postgres.MarkMessagesUpToRead.
  destruct (updateStatus_settled (postgres.upToUnread msg) MessageStatusRead db
              (upToUnread_after msg)) as [Hnone Hsame].
  rewrite <- Hsame at 2. unfold postgres.updateStatus at 1. cbn [snd].
  now rewrite Hnone.
Qed.

(** X1: applying [MarkMessagesUpToRead] a second time with the same message
    id updates no row and leaves the table as the first call left it. *)
Theorem MarkMessagesUpToRead_idempotent (db : postgres.Table) (msg : MessageID) :
  postgres.MarkMessagesUpToRead
    (snd (postgres.MarkMessagesUpToRead db msg)) msg
  = (0%Z, snd (postgres.MarkMessagesUpToRead db msg)).
Proof. exact (cascade_settled db msg). Qed.

Lemma cascade_count (msg : MessageID) (db : postgres.Table) :
  length (filter (postgres.unreadFrom (idSenderID msg) (idReceiverID msg)) db)
  = length (filter (postgres.upToUnread msg) db)
    + length (filter (postgres.unreadFrom (idSenderID msg) (idReceiverID msg))
                (snd (postgres.MarkMessagesUpToRead db msg))).
Proof.
  unfold postgres.MarkMessagesUpToRead, postgres.updateStatus. cbn [snd].
  induction db as [| m r IH]; [reflexivity |].
  cbn [map filter].
  destruct (postgres.upToUnread msg m) eqn:Hhit.
  - assert (Hun : postgres.unreadFrom (idSenderID msg) (idReceiverID msg) m = true).
    { unfold postgres.upToUnread, postgres.unreadFrom, MessageStatusRead in *.
      apply andb_prop in Hhit. destruct Hhit as [Hhit ->].
      apply andb_prop in Hhit. destruct Hhit as [Hhit _].
      apply andb_prop in Hhit. destruct Hhit as [-> ->]. reflexivity. }
    rewrite Hun.
    assert (Hread : postgres.unreadFrom (idSenderID msg) (idReceiverID msg)
                      (postgres.setStatus MessageStatusRead m) = false).
    { unfold postgres.unreadFrom. cbn [postgres.setStatus Status].
      apply andb_false_r. }
    rewrite Hread. cbn [length]. rewrite IH. lia.
  - destruct (postgres.unreadFrom (idSenderID msg) (idReceiverID msg) m);
      cbn [length]; rewrite IH; lia.
Qed.

(** X2: the number [MarkMessagesUpToRead] returns is exactly the drop in the
    unread messages of the receiver from the sender: unread before = rows
    updated + unread after. *)
Theorem MarkMessagesUpToRead_accounting (db : postgres.Table) (msg : MessageID) :
  Z.of_nat (length (unreadMessages db (idReceiverID msg) (idSenderID msg)))
  = (fst (postgres.MarkMessagesUpToRead db msg)
     + Z.of_nat (length (unreadMessages
                           (snd (postgres.MarkMessagesUpToRead db msg))
                           (idReceiverID msg) (idSenderID msg))))%Z.
Proof.
  rewrite <- !unreadFrom_count, (cascade_count msg db), Nat2Z.inj_add.
  reflexivity.
Qed.

(** X3: after [MarkChatAsRead] has succeeded, [GetUnreadCount] for the same
    user and chat is 0. *)
Theorem MarkChatAsRead_clears_unread (db db' : postgres.Table)
    (userID chatID : string) :
  postgres.MarkChatAsRead db userID chatID = (None, db') ->
  postgres.GetUnreadCount db' userID chatID = inl 0%Z.
Proof.
  unfold postgres.MarkChatAsRead, postgres.GetUnreadCount.
  destruct (strings.Split chatID "---") as [| u1 [| u2 [| u3 rest]]];
    try discriminate.
  cbv zeta. intros [= <-].
  destruct (updateStatus_settled
              (postgres.unreadFrom (if String.eqb u1 userID then u2 else u1) userID)
              "read" db (unreadFrom_after _ _)) as [Hnone _].
  unfold postgres.updateStatus in Hnone. cbn [snd] in Hnone.
  now rewrite Hnone.
Qed.

Lemma MarkChatAsRead_clears_unread_witness :
  postgres.GetUnreadCount
    (snd (postgres.MarkChatAsRead sampleTable "alice" "alice---bob"))
    "alice" "alice---bob" = inl 0%Z.
Proof.
  apply (MarkChatAsRead_clears_unread sampleTable _ "alice" "alice---bob").
  reflexivity.
Defined.

(** ** Saving and looking up *)

Lemma find_app_none {A : Type} (p : A -> bool) (l l' : list A) :
  existsb p l = false -> find p (l ++ l') = find p l'.
Proof.
  induction l as [| x r IH]; simpl; [reflexivity |].
  destruct (p x); simpl; [discriminate | exact IH].
Qed.

(** X4: a message [SaveMessage] has stored is looked up by its key with its
    texts as they were saved and, as creation time, the wall-clock reading
    of the saved time to the microsecond, at offset zero: the saved message
    itself when its time is in UTC and of whole microseconds.  Whatever
    could be looked up before the save can still be looked up, unchanged,
    after it. *)
Theorem SaveMessage_then_GetMessageByID (db db' : postgres.Table) (m : Message) :
  postgres.SaveMessage db m = (None, db') ->
  postgres.GetMessageByID db' (idOf m)
  = inl (mkMessage (SenderID m) (ReceiverID m)
           (mkTime (1000 * postgres.timestampOf (CreatedAt m)) UTCLoc)
           (Content m) (Status m)) /\
  (loc (CreatedAt m) = UTCLoc -> (instant (CreatedAt m) mod 1000 = 0)%Z ->
   postgres.GetMessageByID db' (idOf m) = inl m) /\
  forall (messageID : MessageID) (r : Message),
    postgres.GetMessageByID db messageID = inl r ->
    postgres.GetMessageByID db' messageID = inl r.
Proof.
  intros H. apply SaveMessage_ok_inv in H. destruct H as (_ & _ & Hfresh & ->).
  assert (Hget : postgres.GetMessageByID (db ++ [m]) (idOf m)
                 = inl (postgres.scan m)).
  { unfold postgres.GetMessageByID.
    cbn [idOf idSenderID idReceiverID idCreatedAt]. fold (postgres.created_at m).
    fold (keyOf m). rewrite (find_app_none _ _ _ Hfresh). simpl.
    now rewrite keyOf_refl. }
  split; [exact Hget |]. split.
  - intros Hloc Hmicro. now rewrite Hget, (scan_exact m Hloc Hmicro).
  - unfold postgres.GetMessageByID.
    intros messageID r. destruct (find _ db) as [x |] eqn:E; [| discriminate].
    intros [= <-]. now rewrite (find_app_some _ _ _ _ E).
Qed.

Lemma SaveMessage_then_GetMessageByID_witness :
  postgres.GetMessageByID [readByBob; hiBob] (idOf hiBob)
  = inl (mkMessage "alice" "bob" (mkTime 5000 UTCLoc) "hi" "sent") /\
  (loc (CreatedAt hiBob) = UTCLoc -> (instant (CreatedAt hiBob) mod 1000 = 0)%Z ->
   postgres.GetMessageByID [readByBob; hiBob] (idOf hiBob) = inl hiBob) /\
  forall (messageID : MessageID) (r : Message),
    postgres.GetMessageByID [readByBob] messageID = inl r ->
    postgres.GetMessageByID [readByBob; hiBob] messageID = inl r.
Proof.
  apply (SaveMessage_then_GetMessageByID [readByBob] [readByBob; hiBob] hiBob).
  reflexivity.
Defined.

(** A message saved with a time two hours east of UTC and a fraction of a
    microsecond is not read back as it was saved: the time read is the wall
    clock, 7200 seconds and 6 microseconds, in UTC, which is another
    instant. *)
Lemma GetMessageByID_wall_clock :
  postgres.SaveMessage []
    (mkMessage "alice" "bob" (mkTime 5600 LocalLoc) "hi" "sent")
  = (None, [mkMessage "alice" "bob" (mkTime 5600 LocalLoc) "hi" "sent"]) /\
  postgres.GetMessageByID
    [mkMessage "alice" "bob" (mkTime 5600 LocalLoc) "hi" "sent"]
    (mkMessageID "alice" "bob" (mkTime 5600 LocalLoc))
  = inl (mkMessage "alice" "bob" (mkTime 7200000006000 UTCLoc) "hi" "sent") /\
  postgres.GetMessageByID
    [mkMessage "alice" "bob" (mkTime 5600 LocalLoc) "hi" "sent"]
    (mkMessageID "alice" "bob" (mkTime 5600 UTCLoc))
  = inr ErrMessageNotFound.
Proof. repeat split; reflexivity. Qed.

(** ** What the table keeps *)

Lemma sameKey_primaryKey (m x : Message) :
  keyOf m x = true <-> primaryKey x = primaryKey m.
Proof.
  unfold keyOf, postgres.sameKey, primaryKey. split.
  - intros H. apply andb_prop in H. destruct H as [H Ht].
    apply andb_prop in H. destruct H as [Hs Hr].
    apply String.eqb_eq in Hs, Hr. apply Z.eqb_eq in Ht. congruence.
  - intros [= -> -> ->]. now rewrite !String.eqb_refl, Z.eqb_refl.
Qed.

Lemma fresh_key_not_in (db : postgres.Table) (m : Message) :
  existsb (keyOf m) db = false -> ~ In (primaryKey m) (map primaryKey db).
Proof.
  intros Hfresh Hin. apply in_map_iff in Hin. destruct Hin as [x [Hx Hin]].
  assert (Hex : existsb (keyOf m) db = true)
    by (apply existsb_exists; exists x; split; [exact Hin | now apply sameKey_primaryKey]).
  congruence.
Qed.

Lemma checks_setStatus_read (m : Message) :
  postgres.checks m = true -> postgres.checks (postgres.setStatus "read" m) = true.
Proof.
  unfold postgres.checks. cbn [postgres.setStatus SenderID ReceiverID Content Status].
  intros H. apply andb_prop in H. destruct H as [H ->].
  apply andb_prop in H. destruct H as [H ->].
  apply andb_prop in H. destruct H as [H ->].
  apply andb_prop in H. destruct H as [_ ->]. reflexivity.
Qed.

Lemma wellFormed_updateStatus (hit : Message -> bool) (db : postgres.Table) :
  wellFormed db -> wellFormed (snd (postgres.updateStatus hit "read" db)).
Proof.
  unfold wellFormed, postgres.updateStatus. cbn [snd]. intros [Hnd Hall]. split.
  - rewrite map_map. erewrite map_ext; [exact Hnd |].
    intros m. destruct (hit m); reflexivity.
  - apply Forall_map. eapply Forall_impl; [| exact Hall]. cbv beta.
    intros m Hm. destruct (hit m); [now apply checks_setStatus_read | exact Hm].
Qed.

Lemma wellFormed_step (db : postgres.Table) (op : postgres.Op) :
  wellFormed db -> wellFormed (postgres.step db op).
Proof.
  intros Hwf. destruct op as [m | | | msg | | | u c]; cbn [postgres.step]; trivial.
  - unfold postgres.SaveMessage, postgres.insertRow. fold (keyOf m).
    destruct (Validate m); [exact Hwf |].
    destruct (negb (_ && _)); [exact Hwf |].
    destruct (postgres.checks m) eqn:Hc; [| exact Hwf]. cbn [negb].
    destruct (existsb (keyOf m) db) eqn:Hfresh; [exact Hwf |]. cbn [snd].
    destruct Hwf as [Hnd Hall]. split.
    + rewrite map_app. cbn [map].
      eapply Permutation_NoDup; [apply Permutation_cons_append |].
      constructor; [now apply fresh_key_not_in | exact Hnd].
    + apply Forall_app. split; [exact Hall | now constructor].
  - now apply wellFormed_updateStatus.
  - unfold postgres.MarkChatAsRead.
    destruct (strings.Split c "---") as [| u1 [| u2 [| ? ?]]]; cbn [snd]; trivial.
    now apply wellFormed_updateStatus.
Qed.

(** X5: no sequence of repository calls breaks the table's constraints:
    from a table with pairwise different primary keys whose rows pass the
    checks, every call leads to such a table. *)
Theorem wellFormed_preserved (db : postgres.Table) (ops : list postgres.Op) :
  wellFormed db -> wellFormed (postgres.run db ops).
Proof.
  revert db. induction ops as [| op ops IH]; intros db Hwf; [exact Hwf |].
  apply IH. now apply wellFormed_step.
Qed.

Lemma wellFormed_preserved_witness :
  wellFormed
    (postgres.run []
       [postgres.OpSaveMessage hiBob; postgres.OpSaveMessage hiBob;
        postgres.OpSaveMessage hiAlice;
        postgres.OpMarkChatAsRead "bob" "alice---bob"]).
Proof.
  apply (wellFormed_preserved []). split; constructor.
Defined.

Lemma sameOrRead_trans (a b c : Message) :
  sameOrRead a b -> sameOrRead b c -> sameOrRead a c.
Proof.
  unfold sameOrRead. intros [-> | ->] [-> | ->]; auto.
Qed.

Lemma Forall2_sameOrRead_trans (l1 l2 l3 : list Message) :
  Forall2 sameOrRead l1 l2 -> Forall2 sameOrRead l2 l3 ->
  Forall2 sameOrRead l1 l3.
Proof.
  intros H12. revert l3. induction H12 as [| a b r1 r2 Hab _ IH]; intros l3 H23.
  - inversion H23. constructor.
  - inversion H23 as [| b' c r2' r3 Hbc Hr]; subst.
    constructor; [exact (sameOrRead_trans _ _ _ Hab Hbc) | now apply IH].
Qed.

Lemma updateStatus_sameOrRead (hit : Message -> bool) (db : postgres.Table) :
  Forall2 sameOrRead db (snd (postgres.updateStatus hit MessageStatusRead db)).
Proof.
  unfold postgres.updateStatus. cbn [snd].
  induction db as [| m r IH]; constructor; [| exact IH].
  unfold sameOrRead. destruct (hit m); auto.
Qed.

Lemma Forall2_sameOrRead_refl (db : postgres.Table) : Forall2 sameOrRead db db.
Proof. induction db; constructor; [now left | assumption]. Qed.

Ltac unchanged_rows db :=
  exists db, (@nil Message);
  split; [now rewrite app_nil_r | apply Forall2_sameOrRead_refl].

Lemma step_keeps_rows (db : postgres.Table) (op : postgres.Op) :
  exists updated added : list Message,
    postgres.step db op = updated ++ added /\ Forall2 sameOrRead db updated.
Proof.
  destruct op as [m | | | msg | | | u c]; cbn [postgres.step];
    try unchanged_rows db.
  - unfold postgres.SaveMessage, postgres.insertRow.
    destruct (Validate m); [unchanged_rows db |].
    destruct (negb (_ && _)); [unchanged_rows db |].
    destruct (negb (postgres.checks m)); [unchanged_rows db |].
    destruct (existsb _ db); [unchanged_rows db |].
    exists db, [m]. split; [reflexivity | apply Forall2_sameOrRead_refl].
  - eexists. exists (@nil Message).
    split; [now rewrite app_nil_r | apply updateStatus_sameOrRead].
  - unfold postgres.MarkChatAsRead.
    destruct (strings.Split c "---") as [| u1 [| u2 [| ? ?]]]; cbn [snd];
      try unchanged_rows db.
    eexists. exists (@nil Message). split; [now rewrite app_nil_r |].
    apply (updateStatus_sameOrRead _ db).
Qed.

(** X6: the repository never deletes a row and never edits one except to
    set its status to read: after any sequence of calls the table consists of
    the former rows, in their order, each unchanged or with status read,
    followed by the rows added. *)
Theorem rows_never_removed_or_edited (db : postgres.Table) (ops : list postgres.Op) :
  exists updated added : list Message,
    postgres.run db ops = updated ++ added /\ Forall2 sameOrRead db updated.
Proof.
  revert db. induction ops as [| op ops IH]; intros db.
  - unchanged_rows db.
  - cbn [postgres.run fold_left]. fold (postgres.run (postgres.step db op) ops).
    destruct (step_keeps_rows db op) as (u1 & a1 & Hstep & H1).
    destruct (IH (postgres.step db op)) as (u2 & a2 & Hrun & H2).
    rewrite Hstep in H2. apply Forall2_app_inv_l in H2.
    destruct H2 as (u2a & u2b & Ha & _ & ->).
    exists u2a, (u2b ++ a2). split; [now rewrite app_assoc |].
    exact (Forall2_sameOrRead_trans _ _ _ H1 Ha).
Qed.

(** ** Refusals *)

Lemma Validate_error_is_validation (m : Message) (e : error) :
  Validate m = Some e -> IsValidationError e = true.
Proof.
  intros H. apply Validate_first_failure in H.
  destruct e; try contradiction; reflexivity.
Qed.

(** X7: [SaveMessage] refuses a message that fails [Validate] without
    touching the table, with an error that wraps the validation error and
    is recognised by [IsValidationError]. *)
Theorem SaveMessage_rejects_invalid (db : postgres.Table) (m : Message) (e : error) :
  Validate m = Some e ->
  postgres.SaveMessage db m = (Some (Wrap "message validation failed: " e), db) /\
  IsValidationError (Wrap "message validation failed: " e) = true.
Proof.
  intros H. unfold postgres.SaveMessage. rewrite H. split; [reflexivity |].
  exact (Validate_error_is_validation m e H).
Qed.

Lemma SaveMessage_rejects_invalid_witness :
  postgres.SaveMessage [hiBob] paddedContent
  = (Some (Wrap "message validation failed: " ErrContentTooLong), [hiBob]) /\
  IsValidationError (Wrap "message validation failed: " ErrContentTooLong) = true.
Proof.
  apply (SaveMessage_rejects_invalid [hiBob] paddedContent ErrContentTooLong).
  exact paddedContent_refused.
Defined.

(** X8: a chat identifier in which the separator does not occur is refused
    by [GetMessages], [GetUnreadCount] and [MarkChatAsRead] alike, and
    [MarkChatAsRead] then leaves the table alone. *)
Theorem chat_id_without_separator_is_refused (db : postgres.Table)
    (userID chatID : string) (cursor : Time) (limit : Z) :
  strings.Contains chatID chatSep = false ->
  let refused := ErrorText ("invalid chat ID format: " ++ chatID) in
  postgres.GetMessages db chatID cursor limit = inr refused /\
  postgres.GetUnreadCount db userID chatID = inr refused /\
  postgres.MarkChatAsRead db userID chatID = (Some refused, db).
Proof.
  intros H refused.
  assert (Hsplit : strings.Split chatID "---" = [chatID]).
  { unfold strings.Split. change "---" with chatSep.
    now rewrite (genSplit_no_separator chatSep chatID H). }
  unfold postgres.GetMessages, postgres.GetUnreadCount, postgres.MarkChatAsRead.
  rewrite Hsplit. repeat split.
Qed.

Lemma chat_id_without_separator_is_refused_witness :
  let refused := ErrorText ("invalid chat ID format: " ++ "alice_bob") in
  postgres.GetMessages sampleTable "alice_bob" time.Zero 10 = inr refused /\
  postgres.GetUnreadCount sampleTable "alice" "alice_bob" = inr refused /\
  postgres.MarkChatAsRead sampleTable "alice" "alice_bob" = (Some refused, sampleTable).
Proof.
  apply (chat_id_without_separator_is_refused sampleTable "alice" "alice_bob").
  reflexivity.
Defined.

(** ** Pages and counts *)

Lemma descending_firstn {A : Type} (key : A -> Z) (n : nat) (l : list A) :
  descending key l -> descending key (firstn n l).
Proof.
  revert l. induction n as [| n IH]; intros l H; [exact I |].
  destruct l as [| x r]; [exact I |].
  cbn [firstn]. destruct H as [Hx Hr]. split; [| now apply IH].
  destruct n as [| n']; [exact I |]. destruct r as [| y r']; [exact I | exact Hx].
Qed.

Lemma In_firstn {A : Type} (n : nat) (l : list A) (x : A) :
  In x (firstn n l) -> In x l.
Proof.
  intros H. rewrite <- (firstn_skipn n l). apply in_or_app. now left.
Qed.

Lemma effectiveLimit_bounds (limit : Z) : (1 <= effectiveLimit limit <= 100)%Z.
Proof.
  unfold effectiveLimit.
  destruct (Z.leb_spec limit 0), (Z.ltb_spec 100 limit); simpl; lia.
Qed.

Lemma descending_map {A B : Type} (f : A -> B) (k : A -> Z) (k' : B -> Z)
    (l : list A) :
  (forall x y, (k y <= k x)%Z -> (k' (f y) <= k' (f x))%Z) ->
  descending k l -> descending k' (map f l).
Proof.
  intros Hf. induction l as [| x r IH]; [trivial |].
  destruct r as [| y r']; cbn [map descending] in *.
  - tauto.
  - intros [Hxy Hr]. split; [now apply Hf | now apply IH].
Qed.

(** The column value of a time in UTC is within a microsecond of it. *)
Lemma timestampOf_UTC (t : Time) :
  loc t = UTCLoc ->
  (1000 * postgres.timestampOf t - 1000 < instant t
   < 1000 * postgres.timestampOf t + 1000)%Z.
Proof.
  intros Hloc.
  unfold postgres.timestampOf, postgres.wallClock, postgres.roundMicro.
  rewrite Hloc. cbn [postgres.zoneOffset].
  replace (instant t + 1000000000 * 0)%Z with (instant t) by lia.
  pose proof (Z.div_mod (instant t) 1000) as Hdm.
  pose proof (Z.mod_pos_bound (instant t) 1000) as Hm.
  destruct (Z.ltb_spec (instant t mod 1000) 500);
    [lia |].
  destruct (Z.ltb_spec 500 (instant t mod 1000)); [lia |].
  destruct (Z.even (instant t / 1000)); lia.
Qed.

(** X9: whatever the arguments, a page [GetMessages] returns has at most 100
    messages, at most [limit] when the limit is in range, is in descending
    order of creation time, and holds only messages read from rows of the
    table that are messages between the two parts of the chat identifier,
    in one direction or the other; with a non-zero cursor, the stored
    creation time of each is strictly before the cursor's wall-clock reading
    to the microsecond, and strictly before the cursor's instant when the
    cursor is in UTC. *)
Theorem GetMessages_page_bounds (db : postgres.Table) (chatID : string)
    (cursor : Time) (limit : Z) (page : list Message) :
  postgres.GetMessages db chatID cursor limit = inl page ->
  length page <= 100 /\
  ((1 <= limit <= 100)%Z -> (Z.of_nat (length page) <= limit)%Z) /\
  descending createdInstant page /\
  exists user1 user2 : string,
    strings.Split chatID chatSep = [user1; user2] /\
    forall m, In m page ->
      exists row : Message,
        In row db /\ exchanged user1 user2 row /\
        m = mkMessage (SenderID row) (ReceiverID row)
              (mkTime (1000 * postgres.created_at row) UTCLoc)
              (Content row) (Status row) /\
        (time.IsZero cursor = false ->
         (postgres.created_at row < postgres.timestampOf cursor)%Z /\
         (loc cursor = UTCLoc -> (createdInstant m < instant cursor)%Z)).
Proof.
  unfold postgres.GetMessages. fold (effectiveLimit limit). change "---" with chatSep.
  destruct (strings.Split chatID chatSep) as [| u1 [| u2 [| u3 rest]]];
    try discriminate.
  intros [= <-]. pose proof (effectiveLimit_bounds limit) as Hb.
  split; [| split; [| split]].
  - rewrite length_map, length_firstn. lia.
  - intros Hl.
    rewrite (effectiveLimit_in_range limit Hl), length_map, length_firstn. lia.
  - apply (descending_map postgres.scan postgres.created_at).
    + intros x y Hxy. rewrite !createdInstant_scan. lia.
    + apply descending_firstn, sortDesc_descending.
  - exists u1, u2. split; [reflexivity |]. intros m Hin.
    apply in_map_iff in Hin. destruct Hin as [row [<- Hin]].
    exists row.
    apply In_firstn in Hin. unfold postgres.orderByCreatedAtDesc in Hin.
    apply (Permutation_in _ (sortDesc_perm postgres.created_at _)) in Hin.
    assert (Hex : forall x, postgres.between u1 u2 x = true -> exchanged u1 u2 x).
    { intros x Hx. rewrite <- exchanged_between in Hx.
      destruct (exchanged_dec u1 u2 x); [assumption | discriminate]. }
    destruct (time.IsZero cursor); apply filter_In in Hin; destruct Hin as [Hin Hp].
    + split; [exact Hin |]. split; [now apply Hex |].
      split; [reflexivity | discriminate].
    + apply andb_prop in Hp. destruct Hp as [Hb' Hc]. apply Z.ltb_lt in Hc.
      split; [exact Hin |]. split; [now apply Hex |].
      split; [reflexivity |]. intros _. split; [exact Hc |].
      intros Hloc. rewrite createdInstant_scan.
      pose proof (timestampOf_UTC cursor Hloc). lia.
Qed.

Lemma GetMessages_page_bounds_witness :
  let page := [mkMessage "bob" "alice" (at_ 3) "hello alice" "delivered";
               mkMessage "alice" "bob" (at_ 1) "hello bob" "read"] in
  length page <= 100 /\
  ((1 <= 2 <= 100)%Z -> (Z.of_nat (length page) <= 2)%Z) /\
  descending createdInstant page /\
  exists user1 user2 : string,
    strings.Split "alice---bob" chatSep = [user1; user2] /\
    forall m, In m page ->
      exists row : Message,
        In row sampleTable /\ exchanged user1 user2 row /\
        m = mkMessage (SenderID row) (ReceiverID row)
              (mkTime (1000 * postgres.created_at row) UTCLoc)
              (Content row) (Status row) /\
        (time.IsZero (at_ 6) = false ->
         (postgres.created_at row < postgres.timestampOf (at_ 6))%Z /\
         (loc (at_ 6) = UTCLoc -> (createdInstant m < instant (at_ 6))%Z)).
Proof.
  apply (GetMessages_page_bounds sampleTable "alice---bob" (at_ 6) 2).
  reflexivity.
Defined.

(** X10: for a user and a counterparty with separator-free identifiers,
    [GetUnreadCount] on the chat identifier of a session returned by
    [GetChatSessions] gives that session's unread count. *)
Theorem GetUnreadCount_agrees_with_session (db : postgres.Table) (u : string)
    (s : ChatSession) :
  In s (postgres.GetChatSessions db u) ->
  separatorFree u -> separatorFree (OtherParticipant s) ->
  postgres.GetUnreadCount db u (ChatID s) = inl (UnreadCount s).
Proof.
  intros Hin Hu Hp.
  apply (Permutation_in _ (sortDesc_perm _ _)) in Hin.
  apply in_map_iff in Hin. destruct Hin as [p [<- _]].
  destruct (sessionFor_participant db u p) as [Ho [-> ->]].
  rewrite Ho in Hp. unfold postgres.GetUnreadCount. change "---" with chatSep.
  rewrite (Split_ComputeChatID u p Hu Hp), <- unreadFrom_count.
  destruct (String.ltb u p).
  - now rewrite String.eqb_refl.
  - destruct (String.eqb_spec p u) as [-> |]; reflexivity.
Qed.

Lemma GetUnreadCount_agrees_with_session_witness :
  postgres.GetUnreadCount sampleTable "alice"
    (ChatID (mkChatSession "alice---bob" "bob" (at_ 6) 2 "are you there" "bob"))
  = inl (UnreadCount (mkChatSession "alice---bob" "bob" (at_ 6) 2
                        "are you there" "bob")).
Proof.
  apply (GetUnreadCount_agrees_with_session sampleTable "alice").
  - rewrite GetChatSessions_sample. now left.
  - split; reflexivity.
  - split; reflexivity.
Defined.

(** ** Chat identifiers, continued *)

(** X11: on separator-free identifiers the chat identifier determines the
    pair of participants: two pairs with the same chat identifier are the
    same pair, in one order or the other. *)
Theorem ComputeChatID_injective (a b c d : string) :
  separatorFree a -> separatorFree b -> separatorFree c -> separatorFree d ->
  ComputeChatID a b = ComputeChatID c d ->
  (a = c /\ b = d) \/ (a = d /\ b = c).
Proof.
  intros Ha Hb Hc Hd Heq.
  pose proof (Split_ComputeChatID a b Ha Hb) as Hab.
  pose proof (Split_ComputeChatID c d Hc Hd) as Hcd.
  rewrite Heq, Hcd in Hab.
  destruct (String.ltb a b), (String.ltb c d); injection Hab as -> ->; auto.
Qed.

Lemma ComputeChatID_injective_witness :
  ("bob" = "alice" /\ "alice" = "bob") \/ ("bob" = "bob" /\ "alice" = "alice").
Proof.
  apply (ComputeChatID_injective "bob" "alice" "alice" "bob");
    [split | split | split | split |]; reflexivity.
Defined.

(** X12: for a participant of a message, the chat identifier computed from
    the participant and [GetOtherParticipant] is the chat identifier of the
    message's sender and receiver. *)
Theorem GetOtherParticipant_same_chat (m : Message) (currentUserID : string) :
  currentUserID = SenderID m \/ currentUserID = ReceiverID m ->
  ComputeChatID currentUserID (GetOtherParticipant m currentUserID)
  = ComputeChatID (SenderID m) (ReceiverID m).
Proof.
  unfold GetOtherParticipant. intros [-> | ->].
  - now rewrite String.eqb_refl.
  - destruct (String.eqb_spec (SenderID m) (ReceiverID m)) as [-> |];
      [reflexivity | apply ComputeChatID_sym].
Qed.

Lemma GetOtherParticipant_same_chat_witness :
  ComputeChatID "bob" (GetOtherParticipant hiBob "bob")
  = ComputeChatID (SenderID hiBob) (ReceiverID hiBob).
Proof. apply (GetOtherParticipant_same_chat hiBob "bob"). now right. Defined.

(* ========================================================================= *)
(** * Further properties of the handlers *)

(** ** Sends that are refused *)

Lemma SaveMessage_error_unchanged (db db' : postgres.Table) (m : Message)
    (e : error) :
  postgres.SaveMessage db m = (Some e, db') -> db' = db.
Proof.
  unfold postgres.SaveMessage, postgres.insertRow.
  destruct (Validate m); [now intros [= _ <-] |].
  destruct (negb (_ && _)); [now intros [= _ <-] |].
  destruct (negb (postgres.checks m)); [now intros [= _ <-] |].
  destruct (existsb _ db); [now intros [= _ <-] | discriminate].
Qed.

(** X13: a send that is not answered 201 has changed neither the table nor
    the publisher: nothing is stored and nothing is published. *)
Theorem rejected_send_has_no_effect {P : Type} `{MessagePublisher P}
    (decodeSend : string -> SendMessageRequest + error)
    (h : MessageHandler postgres.Table P) (r : Request) (now : Time) :
  StatusCode (fst (SendMessage decodeSend h r now)) <> StatusCreated ->
  MessageRepo (snd (SendMessage decodeSend h r now)) = MessageRepo h /\
  Publisher (snd (SendMessage decodeSend h r now)) = Publisher h.
Proof.
  unfold SendMessage.
  destruct (pathParam (Path r)) as [receiverID |]; [| split; reflexivity].
  destruct (User r) as [user |]; [| split; reflexivity].
  destruct (decodeSend (Body r)) as [req | err]; [| split; reflexivity].
  destruct (Validate _) as [err |];
    [destruct (IsValidationError err); split; reflexivity |].
  cbn [repoSaveMessage postgresRepository].
  destruct (postgres.SaveMessage (MessageRepo h) _) as [[e |] db'] eqn:Hsave.
  - apply SaveMessage_error_unchanged in Hsave. subst db'.
    intros _. destruct e; split; reflexivity.
  - cbn [MessageRepo Publisher Logger].
    destruct (PublishMessage (Publisher h) _) as [[err |] pub'];
      intros Hne; exfalso; apply Hne; reflexivity.
Qed.

Lemma rejected_send_has_no_effect_witness :
  MessageRepo (snd (SendMessage (publisher := failingPublisher) contentOfBody
                      (mkHandler [hiBob] tt [])
                      (requestOf "/api/v1/chats/bob/messages" "alice" "hi")
                      (at_ 5)))
  = [hiBob] /\
  Publisher (snd (SendMessage (publisher := failingPublisher) contentOfBody
                    (mkHandler [hiBob] tt [])
                    (requestOf "/api/v1/chats/bob/messages" "alice" "hi")
                    (at_ 5)))
  = tt.
Proof.
  apply (rejected_send_has_no_effect (H := failingPublisher) contentOfBody
           (mkHandler [hiBob] tt [])
           (requestOf "/api/v1/chats/bob/messages" "alice" "hi") (at_ 5)).
  discriminate.
Defined.

(** X14: a send whose receiver is the sender is answered 400 with code
    VALIDATION_ERROR, whatever the content, and reaches neither the
    repository nor the publisher. *)
Theorem SendMessage_to_self_is_refused {R P : Type} `{MessageRepository R}
    `{MessagePublisher P}
    (decodeSend : string -> SendMessageRequest + error)
    (h : MessageHandler R P) (r : Request) (now : Time)
    (user : UserContext) (req : SendMessageRequest) :
  pathParam (Path r) = Some (UserID user) ->
  User r = Some user ->
  decodeSend (Body r) = inl req ->
  exists details : string,
    SendMessage decodeSend h r now
    = (writeErrorResponse StatusBadRequest "Validation failed"
         "VALIDATION_ERROR" details, h).
Proof.
  intros Hp Hu Hd. unfold SendMessage. rewrite Hp, Hu, Hd.
  unfold Validate. cbn [SenderID ReceiverID].
  destruct (String.eqb (strings.TrimSpace (UserID user)) "");
    [eexists; reflexivity |].
  rewrite String.eqb_refl. eexists; reflexivity.
Qed.

Lemma SendMessage_to_self_is_refused_witness :
  exists details : string,
    SendMessage (publisher := failingPublisher) contentOfBody
      (mkHandler [hiBob] tt [])
      (requestOf "/api/v1/chats/alice/messages" "alice" "note to self") (at_ 5)
    = (writeErrorResponse StatusBadRequest "Validation failed"
         "VALIDATION_ERROR" details, mkHandler [hiBob] tt []).
Proof.
  apply (SendMessage_to_self_is_refused (H := postgresRepository)
           (H0 := failingPublisher) contentOfBody (mkHandler [hiBob] tt [])
           (requestOf "/api/v1/chats/alice/messages" "alice" "note to self")
           (at_ 5) (userNamed "alice") {| reqContent := "note to self" |});
    reflexivity.
Defined.

(** X15: [SendMessage] never answers with code INTERNAL_ERROR: every error
    of [Validate] is one [IsValidationError] recognises. *)
Theorem SendMessage_never_internal_error {R P : Type} `{MessageRepository R}
    `{MessagePublisher P}
    (decodeSend : string -> SendMessageRequest + error)
    (h : MessageHandler R P) (r : Request) (now : Time) (e : ErrorResponse) :
  ResponseJSON (fst (SendMessage decodeSend h r now)) = JSONError e ->
  Code e <> "INTERNAL_ERROR".
Proof.
  unfold SendMessage.
  destruct (pathParam (Path r)) as [receiverID |];
    [| intros [= <-]; discriminate].
  destruct (User r) as [user |]; [| intros [= <-]; discriminate].
  destruct (decodeSend (Body r)) as [req | err];
    [| intros [= <-]; discriminate].
  destruct (Validate _) as [err |] eqn:Hv.
  - rewrite (Validate_error_is_validation _ _ Hv). intros [= <-]. discriminate.
  - destruct (repoSaveMessage (MessageRepo h) _) as [[err |] repo'].
    + destruct err; intros [= <-]; discriminate.
    + cbn [MessageRepo Publisher Logger].
      destruct (PublishMessage (Publisher h) _) as [[err |] pub']; discriminate.
Qed.

Lemma SendMessage_never_internal_error_witness :
  Code (mkErrorResponse "Validation failed" "VALIDATION_ERROR"
          (errorText ErrEmptyContent)) <> "INTERNAL_ERROR".
Proof.
  apply (SendMessage_never_internal_error (H := postgresRepository)
           (H0 := failingPublisher) contentOfBody (mkHandler [hiBob] tt [])
           (requestOf "/api/v1/chats/bob/messages" "alice" "  ") (at_ 5)).
  reflexivity.
Defined.

(** ** Status updates that are refused *)

(** X16: a status update for a message the user did not receive is answered
    403, and neither the repository nor the publisher is reached. *)
Theorem UpdateMessageStatus_forbidden {R P : Type} `{MessageRepository R}
    `{MessagePublisher P}
    (decodeStatus : string -> UpdateStatusRequest + error)
    (h : MessageHandler R P) (r : Request) (now : Time)
    (user : UserContext) (req : UpdateStatusRequest) :
  User r = Some user ->
  decodeStatus (Body r) = inl req ->
  idReceiverID (reqMessageID req) <> UserID user ->
  UpdateMessageStatus decodeStatus h r now
  = (writeErrorResponse StatusForbidden "Access denied" "ACCESS_DENIED"
       "Can only update status of messages you received", h).
Proof.
  intros Hu Hd Hne. unfold UpdateMessageStatus. rewrite Hu, Hd.
  apply String.eqb_neq in Hne. now rewrite Hne.
Qed.

Lemma UpdateMessageStatus_forbidden_witness :
  UpdateMessageStatus (publisher := failingPublisher)
    (alwaysID (idOf hiBob)) (mkHandler [hiBob] tt [])
    (requestOf "/api/v1/messages/status" "alice" "") (at_ 7)
  = (writeErrorResponse StatusForbidden "Access denied" "ACCESS_DENIED"
       "Can only update status of messages you received",
     mkHandler [hiBob] tt []).
Proof.
  apply (UpdateMessageStatus_forbidden (H := postgresRepository)
           (H0 := failingPublisher) (alwaysID (idOf hiBob))
           (mkHandler [hiBob] tt [])
           (requestOf "/api/v1/messages/status" "alice" "") (at_ 7)
           (userNamed "alice") {| reqMessageID := idOf hiBob |});
    [reflexivity | reflexivity | discriminate].
Defined.

(** ** Limits that are refused *)

(** X17: a limit parameter that is not a number, or a number outside 1 to
    100, is answered 400 with code INVALID_LIMIT before the repository is
    asked. *)
Theorem GetMessages_rejects_limit {R P : Type} `{MessageRepository R}
    (parseRFC3339 : string -> option Time) (formatRFC3339 : Time -> string)
    (Atoi : string -> option Z)
    (h : MessageHandler R P) (r : Request) (chatID : string) (user : UserContext) :
  pathParam (Path r) = Some chatID -> User r = Some user ->
  isUserParticipant (UserID user) chatID = true ->
  Query r "cursor" = "" \/ parseRFC3339 (Query r "cursor") <> None ->
  Query r "limit" <> "" ->
  (forall limit, Atoi (Query r "limit") = Some limit ->
                 (limit < 1 \/ 100 < limit)%Z) ->
  GetMessages parseRFC3339 formatRFC3339 Atoi h r
  = (writeErrorResponse StatusBadRequest "Invalid limit" "INVALID_LIMIT"
       "Limit must be between 1 and 100", h).
Proof.
  intros Hp Hu Hpart Hcur Hlim Hout. unfold GetMessages.
  rewrite Hp, Hu, Hpart. cbn [negb].
  apply String.eqb_neq in Hlim. rewrite Hlim.
  assert (Hlimit : match Atoi (Query r "limit") with
                   | Some limit =>
                       if (limit <? 1)%Z || (100 <? limit)%Z then None
                       else Some limit
                   | None => None
                   end = None).
  { destruct (Atoi (Query r "limit")) as [limit |]; [| reflexivity].
    destruct (Hout limit eq_refl) as [Hl | Hl].
    - apply Z.ltb_lt in Hl. now rewrite Hl.
    - apply Z.ltb_lt in Hl. rewrite Hl. now rewrite orb_true_r. }
  rewrite Hlimit.
  destruct (String.eqb (Query r "cursor") "") eqn:Hc; [reflexivity |].
  destruct Hcur as [Hcur | Hcur]; [apply String.eqb_neq in Hc; contradiction |].
  destruct (parseRFC3339 (Query r "cursor")); [reflexivity | contradiction].
Qed.

Lemma GetMessages_rejects_limit_witness :
  GetMessages (fun _ => None) (fun _ => "") strconvAtoi
    (mkHandler [hiBob] tt [])
    (listRequest "/api/v1/chats/alice---bob/messages" "bob" "" "150")
  = (writeErrorResponse StatusBadRequest "Invalid limit" "INVALID_LIMIT"
       "Limit must be between 1 and 100", mkHandler [hiBob] tt []).
Proof.
  apply (GetMessages_rejects_limit (H := postgresRepository) (fun _ => None)
           (fun _ => "") strconvAtoi (mkHandler [hiBob] tt [])
           (listRequest "/api/v1/chats/alice---bob/messages" "bob" "" "150")
           "alice---bob" (userNamed "bob")).
  - reflexivity.
  - reflexivity.
  - reflexivity.
  - now left.
  - discriminate.
  - intros limit Hl. vm_compute in Hl. injection Hl as <-. right. lia.
Defined.

(** A limit in range reaches the repository; the absent limit is 50. *)
Lemma GetMessages_limit_in_range :
  fst (GetMessages (fun _ => None) (fun _ => "at") strconvAtoi
         (mkHandler [readByBob; hiBob] tt [])
         (listRequest "/api/v1/chats/alice---bob/messages" "bob" "" "1"))
  = mkResponse StatusOK (JSONGetMessages [hiBob] "at" true) /\
  fst (GetMessages (fun _ => None) (fun _ => "at") strconvAtoi
         (mkHandler [readByBob; hiBob] tt [])
         (listRequest "/api/v1/chats/alice---bob/messages" "bob" "" ""))
  = mkResponse StatusOK (JSONGetMessages [hiBob; readByBob] "" false).
Proof. split; reflexivity. Qed.

(** ** The chat list *)






(** Without a user in the context [GetChats] answers 401 and asks nothing. *)
Lemma GetChats_without_user {R : Type} `{MessageRepository R}
    (h : ChatHandler R) (r : Request) :
  User r = None ->
  GetChats h r
  = (mkChatResponse StatusUnauthorized
       (JSONChatError (mkErrorResponse "User context not found"
                         "NO_USER_CONTEXT" "")), h).
Proof. intros Hu. unfold GetChats. now rewrite Hu. Qed.

(* ========================================================================= *)
(** * Properties of the publisher and of the middleware *)

(** ** Topics *)

(** X19: the message topics of two receivers coincide only if the receivers
    do, likewise the status topics of two users, and no message topic is a
    status topic. *)
Theorem topics_are_separate (a b : string) :
  (GetMessageTopic a = GetMessageTopic b -> a = b) /\
  (GetStatusTopic a = GetStatusTopic b -> a = b) /\
  GetMessageTopic a <> GetStatusTopic b.
Proof.
  unfold GetMessageTopic, GetStatusTopic, MessageTopicPrefix, StatusTopicPrefix.
  cbn [append]. repeat split; intros H; [now injection H | now injection H |].
  discriminate H.
Qed.

(** ** What reaches the connection *)

(** On a connection that delivers, [PublishMessage] hands over exactly
    one payload, the marshalled envelope of type new_message holding the
    message, on the message topic of the message's receiver, and
    [PublishStatusUpdate] one payload of type status_update on the status
    topic of the given user; when marshalling fails, the call fails and
    nothing is handed over. *)
Lemma nats_publishes_on_the_topic (Marshal : Envelope -> string + error)
    (p : NATSMessagePublisher Delivered) (message : Message)
    (userID : string) (statusUpdate : StatusUpdate) :
  let sent (q : option error * NATSMessagePublisher Delivered) :=
    natsConn (snd q) in
  match Marshal (MessageEnvelope "new_message" (time.UTC (natsNow p)) message) with
  | inl payload =>
      fst (natsPublishMessage Marshal p message) = None /\
      sent (natsPublishMessage Marshal p message)
      = natsConn p ++ [(("messages." ++ ReceiverID message)%string, payload)]
  | inr err =>
      fst (natsPublishMessage Marshal p message)
      = Some (Wrap "failed to marshal message: " err) /\
      sent (natsPublishMessage Marshal p message) = natsConn p
  end /\
  match Marshal (StatusUpdateEnvelope "status_update" (time.UTC (natsNow p))
                   statusUpdate) with
  | inl payload =>
      fst (natsPublishStatusUpdate Marshal p userID statusUpdate) = None /\
      sent (natsPublishStatusUpdate Marshal p userID statusUpdate)
      = natsConn p ++ [(("status." ++ userID)%string, payload)]
  | inr err =>
      fst (natsPublishStatusUpdate Marshal p userID statusUpdate)
      = Some (Wrap "failed to marshal status update: " err) /\
      sent (natsPublishStatusUpdate Marshal p userID statusUpdate) = natsConn p
  end.
Proof.
  intros sent. unfold sent, natsPublishMessage, natsPublishStatusUpdate.
  change MessageTypeNewMessage with "new_message".
  change MessageTypeStatusUpdate with "status_update".
  split.
  - destruct (Marshal (MessageEnvelope _ _ _)); split; reflexivity.
  - destruct (Marshal (StatusUpdateEnvelope _ _ _)); split; reflexivity.
Qed.

(** X20: with the NATS publisher on a delivering connection and the
    PostgreSQL repository, a send answered 201 has handed exactly one payload
    to the connection, the marshalled envelope of the stored message on the
    message topic of the receiver named in the path (nothing when
    marshalling fails). *)
Theorem accepted_send_is_published (Marshal : Envelope -> string + error)
    (decodeSend : string -> SendMessageRequest + error)
    (h : MessageHandler postgres.Table (NATSMessagePublisher Delivered))
    (r : Request) (now : Time) :
  let out := SendMessage (publisher := natsPublisher Marshal) decodeSend h r now in
  StatusCode (fst out) = StatusCreated ->
  exists (receiverID : string) (user : UserContext) (req : SendMessageRequest),
    pathParam (Path r) = Some receiverID /\
    User r = Some user /\
    decodeSend (Body r) = inl req /\
    natsConn (Publisher (snd out))
    = natsConn (Publisher h)
      ++ match Marshal (MessageEnvelope "new_message"
                          (time.UTC (natsNow (Publisher h)))
                          (mkMessage (UserID user) receiverID (time.UTC now)
                             (reqContent req) "sent")) with
         | inl payload => [(GetMessageTopic receiverID, payload)]
         | inr _ => []
         end.
Proof.
  intros out. unfold out, SendMessage.
  destruct (pathParam (Path r)) as [receiverID |]; [| discriminate].
  destruct (User r) as [user |]; [| discriminate].
  destruct (decodeSend (Body r)) as [req | err]; [| discriminate].
  destruct (Validate _) as [err |] eqn:Hv;
    [destruct (IsValidationError err); discriminate |].
  cbn [repoSaveMessage postgresRepository].
  rewrite (SaveMessage_valid _ _ Hv).
  destruct (negb (storableMessage _)); [discriminate |].
  destruct (existsb _ (MessageRepo h)); [discriminate |].
  intros _. exists receiverID, user, req. repeat split.
  cbn [MessageRepo Publisher Logger PublishMessage natsPublisher].
  unfold natsPublishMessage. cbn [ReceiverID].
  change MessageTypeNewMessage with "new_message".
  destruct (Marshal (MessageEnvelope _ _ _)); cbn; [reflexivity |].
  now rewrite app_nil_r.
Qed.

Lemma accepted_send_is_published_witness :
  exists (receiverID : string) (user : UserContext) (req : SendMessageRequest),
    pathParam "/api/v1/chats/bob/messages" = Some receiverID /\
    Some (userNamed "alice") = Some user /\
    contentOfBody "hi" = inl req /\
    natsConn (Publisher (snd (SendMessage (publisher := natsPublisher showEnvelope)
                                contentOfBody
                                (mkHandler [] (mkNATSPublisher [] (at_ 6) []) [])
                                (requestOf "/api/v1/chats/bob/messages" "alice" "hi")
                                (at_ 5))))
    = [] ++ match showEnvelope (MessageEnvelope "new_message" (time.UTC (at_ 6))
                                  (mkMessage (UserID user) receiverID
                                     (time.UTC (at_ 5)) (reqContent req) "sent")) with
            | inl payload => [(GetMessageTopic receiverID, payload)]
            | inr _ => []
            end.
Proof.
  apply (accepted_send_is_published showEnvelope contentOfBody
           (mkHandler [] (mkNATSPublisher [] (at_ 6) []) [])
           (requestOf "/api/v1/chats/bob/messages" "alice" "hi") (at_ 5)).
  reflexivity.
Defined.

(** The payloads of a send and of the status update that answers it, as the
    connection received them. *)
Lemma send_then_read_on_the_wire :
  natsConn (Publisher (snd (SendMessage (publisher := natsPublisher showEnvelope)
                              contentOfBody
                              (mkHandler [] (mkNATSPublisher [] (at_ 6) []) [])
                              (requestOf "/api/v1/chats/bob/messages" "alice" "hi")
                              (at_ 5))))
  = [("messages.bob", "new_message:hi")] /\
  natsConn (Publisher (snd (UpdateMessageStatus
                              (publisher := natsPublisher showEnvelope)
                              (alwaysID (idOf hiBob))
                              (mkHandler [hiBob] (mkNATSPublisher [] (at_ 8) []) [])
                              (requestOf "/api/v1/messages/status" "bob" "")
                              (at_ 7))))
  = [("status.bob", "status_update:read")].
Proof. split; reflexivity. Qed.

(** X21: with the NATS publisher on a delivering connection and the
    PostgreSQL repository, a status update answered 200 has handed exactly
    one payload to the connection: the envelope of a status update to read,
    made by the requesting user, on the status topic of that user, who is the
    receiver of the message addressed (nothing when marshalling fails). *)
Theorem applied_update_is_published (Marshal : Envelope -> string + error)
    (decodeStatus : string -> UpdateStatusRequest + error)
    (h : MessageHandler postgres.Table (NATSMessagePublisher Delivered))
    (r : Request) (now : Time) :
  let out :=
    UpdateMessageStatus (publisher := natsPublisher Marshal) decodeStatus h r now in
  StatusCode (fst out) = StatusOK ->
  exists (user : UserContext) (req : UpdateStatusRequest),
    User r = Some user /\
    decodeStatus (Body r) = inl req /\
    idReceiverID (reqMessageID req) = UserID user /\
    natsConn (Publisher (snd out))
    = natsConn (Publisher h)
      ++ match Marshal (StatusUpdateEnvelope "status_update"
                          (time.UTC (natsNow (Publisher h)))
                          (mkStatusUpdate (reqMessageID req) "read"
                             (UserID user) (time.UTC now))) with
         | inl payload =>
             [(GetStatusTopic (idReceiverID (reqMessageID req)), payload)]
         | inr _ => []
         end.
Proof.
  intros out. unfold out, UpdateMessageStatus.
  destruct (User r) as [user |]; [| discriminate].
  destruct (decodeStatus (Body r)) as [req | err]; [| discriminate].
  destruct (String.eqb_spec (idReceiverID (reqMessageID req)) (UserID user))
    as [Heq |]; [| discriminate].
  cbn [negb repoMarkMessagesUpToRead postgresRepository].
  destruct (postgres.MarkMessagesUpToRead (MessageRepo h) (reqMessageID req))
    as [affected db'].
  intros _. exists user, req. repeat split; [exact Heq |].
  cbn [MessageRepo Publisher Logger PublishStatusUpdate natsPublisher].
  unfold natsPublishStatusUpdate. rewrite Heq.
  change MessageTypeStatusUpdate with "status_update".
  change MessageStatusRead with "read".
  destruct (Marshal (StatusUpdateEnvelope _ _ _)); cbn; [reflexivity |].
  now rewrite app_nil_r.
Qed.

Lemma applied_update_is_published_witness :
  exists (user : UserContext) (req : UpdateStatusRequest),
    Some (userNamed "bob") = Some user /\
    alwaysID (idOf hiBob) "" = inl req /\
    idReceiverID (reqMessageID req) = UserID user /\
    natsConn (Publisher (snd (UpdateMessageStatus
                                (publisher := natsPublisher showEnvelope)
                                (alwaysID (idOf hiBob))
                                (mkHandler [hiBob] (mkNATSPublisher [] (at_ 8) []) [])
                                (requestOf "/api/v1/messages/status" "bob" "")
                                (at_ 7))))
    = [] ++ match showEnvelope (StatusUpdateEnvelope "status_update"
                                  (time.UTC (at_ 8))
                                  (mkStatusUpdate (reqMessageID req) "read"
                                     (UserID user) (time.UTC (at_ 7)))) with
            | inl payload =>
                [(GetStatusTopic (idReceiverID (reqMessageID req)), payload)]
            | inr _ => []
            end.
Proof.
  apply (applied_update_is_published showEnvelope (alwaysID (idOf hiBob))
           (mkHandler [hiBob] (mkNATSPublisher [] (at_ 8) []) [])
           (requestOf "/api/v1/messages/status" "bob" "") (at_ 7)).
  reflexivity.
Defined.

(** ** The user-context middleware *)

Lemma nonBlank_eqb (s : string) :
  String.eqb (strings.TrimSpace s) "" = false <-> nonBlank s.
Proof. unfold nonBlank. apply String.eqb_neq. Qed.

Lemma nonBlank_not_empty (s : string) : nonBlank s -> s <> "".
Proof. intros H ->. now apply H. Qed.

(** X22: the middleware lets a request through exactly when the three
    configured headers are non-blank, handing the handler a user context made
    of their values; every other request is answered 401. *)
Theorem withUserContext_admits_iff (auth : AuthConfig) (header : string -> string) :
  let userID := header (UserIDHeader auth) in
  let email := header (EmailHeader auth) in
  let handler := header (HandlerHeader auth) in
  (nonBlank userID /\ nonBlank email /\ nonBlank handler ->
   withUserContext auth header = inr (mkUserContext userID email handler)) /\
  (~ (nonBlank userID /\ nonBlank email /\ nonBlank handler) ->
   exists response,
     withUserContext auth header = inl response /\
     StatusCode response = StatusUnauthorized).
Proof.
  intros userID email handler. unfold withUserContext, ValidateUser.
  fold userID email handler. cbn [UserID Email Handler]. split.
  - intros (Hu & He & Hh).
    pose proof (nonBlank_not_empty _ Hu) as Hne. apply String.eqb_neq in Hne.
    apply nonBlank_eqb in Hu, He, Hh. now rewrite Hne, Hu, He, Hh.
  - intros Hnot.
    destruct (String.eqb userID ""); [eexists; split; reflexivity |].
    destruct (String.eqb (strings.TrimSpace userID) "") eqn:Hu;
      [eexists; split; reflexivity |].
    destruct (String.eqb (strings.TrimSpace email) "") eqn:He;
      [eexists; split; reflexivity |].
    destruct (String.eqb (strings.TrimSpace handler) "") eqn:Hh;
      [eexists; split; reflexivity |].
    exfalso. apply Hnot. now rewrite <- !nonBlank_eqb.
Qed.

Lemma withUserContext_admits_iff_witness :
  withUserContext defaultAuth (headersOf "alice" "alice@test.com" "alice_h")
  = inr (mkUserContext "alice" "alice@test.com" "alice_h") /\
  exists response,
    withUserContext defaultAuth (headersOf "alice" "  " "alice_h") = inl response /\
    StatusCode response = StatusUnauthorized.
Proof.
  split.
  - apply (withUserContext_admits_iff defaultAuth
             (headersOf "alice" "alice@test.com" "alice_h")).
    repeat split; discriminate.
  - apply (withUserContext_admits_iff defaultAuth
             (headersOf "alice" "  " "alice_h")).
    intros (_ & He & _). now apply He.
Defined.

(* ========================================================================= *)
(** * Further properties of the cascade and of the participant check *)

Lemma setStatus_same (m : Message) :
  Status m = MessageStatusRead -> postgres.setStatus MessageStatusRead m = m.
Proof. destruct m. cbn. now intros ->. Qed.

Lemma cascade_as_map (db : postgres.Table) (msg : MessageID) :
  snd (postgres.MarkMessagesUpToRead db msg)
  = map (fun m => if inCascade msg m
                  then postgres.setStatus MessageStatusRead m else m) db.
Proof.
  unfold postgres.MarkMessagesUpToRead, postgres.updateStatus. cbn [snd].
  apply map_ext. intros m. unfold postgres.upToUnread. fold (inCascade msg m).
  destruct (inCascade msg m); [| reflexivity].
  destruct (String.eqb_spec (Status m) MessageStatusRead) as [Hr |];
    [now rewrite setStatus_same | reflexivity].
Qed.

(** X23: after [MarkMessagesUpToRead] every message from the sender to the
    receiver of the message id whose stored creation time is at or before
    the time of the id, taken as the table takes it, the wall-clock reading
    to the microsecond, is read; every other row is still in the table as it
    was, and the table has as many rows as before. *)
Theorem MarkMessagesUpToRead_effect (db : postgres.Table) (msg : MessageID) :
  let db' := snd (postgres.MarkMessagesUpToRead db msg) in
  (forall m', In m' db' -> inCascade msg m' = true ->
              Status m' = MessageStatusRead) /\
  (forall m, In m db -> inCascade msg m = false -> In m db') /\
  length db' = length db.
Proof.
  intros db'. unfold db'. rewrite cascade_as_map. split; [| split].
  - intros m' Hin Hc. apply in_map_iff in Hin. destruct Hin as [m [<- _]].
    destruct (inCascade msg m) eqn:E; [reflexivity |].
    rewrite E in Hc. discriminate.
  - intros m Hin Hc. apply in_map_iff. exists m. now rewrite Hc.
  - apply length_map.
Qed.

(** The bound of the cascade is a wall clock: an id whose time is written
    two hours east of UTC marks a message stored in UTC one hour after the
    instant of the id; the same instant written in UTC does not. *)
Lemma MarkMessagesUpToRead_wall_clock :
  time.Before (mkTime 1000 LocalLoc) (at_ 3600000000) = true /\
  postgres.MarkMessagesUpToRead
    [mkMessage "alice" "bob" (at_ 3600000000) "later" "sent"]
    (mkMessageID "alice" "bob" (mkTime 1000 LocalLoc))
  = (1%Z, [mkMessage "alice" "bob" (at_ 3600000000) "later" "read"]) /\
  postgres.MarkMessagesUpToRead
    [mkMessage "alice" "bob" (at_ 3600000000) "later" "sent"]
    (mkMessageID "alice" "bob" (mkTime 1000 UTCLoc))
  = (0%Z, [mkMessage "alice" "bob" (at_ 3600000000) "later" "sent"]).
Proof. repeat split; reflexivity. Qed.

Lemma UpdateMessageStatus_applied {P : Type} `{MessagePublisher P}
    (decodeStatus : string -> UpdateStatusRequest + error)
    (h : MessageHandler postgres.Table P) (r : Request) (now : Time)
    (user : UserContext) (req : UpdateStatusRequest) :
  User r = Some user -> decodeStatus (Body r) = inl req ->
  idReceiverID (reqMessageID req) = UserID user ->
  fst (UpdateMessageStatus decodeStatus h r now)
  = mkResponse StatusOK
      (JSONUpdateStatus
         (fst (postgres.MarkMessagesUpToRead (MessageRepo h) (reqMessageID req)))) /\
  MessageRepo (snd (UpdateMessageStatus decodeStatus h r now))
  = snd (postgres.MarkMessagesUpToRead (MessageRepo h) (reqMessageID req)).
Proof.
  intros Hu Hd Hr. unfold UpdateMessageStatus.
  rewrite Hu, Hd, Hr, String.eqb_refl.
  cbn [negb repoMarkMessagesUpToRead postgresRepository].
  destruct (postgres.MarkMessagesUpToRead (MessageRepo h) (reqMessageID req))
    as [affected db'].
  cbn [MessageRepo Publisher Logger].
  destruct (PublishStatusUpdate (Publisher h) (UserID user) _) as [[e |] pub'];
    split; reflexivity.
Qed.

Lemma UpdateMessageStatus_ok_inv {R P : Type} `{MessageRepository R}
    `{MessagePublisher P}
    (decodeStatus : string -> UpdateStatusRequest + error)
    (h : MessageHandler R P) (r : Request) (now : Time) :
  StatusCode (fst (UpdateMessageStatus decodeStatus h r now)) = StatusOK ->
  exists (user : UserContext) (req : UpdateStatusRequest),
    User r = Some user /\ decodeStatus (Body r) = inl req /\
    idReceiverID (reqMessageID req) = UserID user.
Proof.
  unfold UpdateMessageStatus.
  destruct (User r) as [user |]; [| discriminate].
  destruct (decodeStatus (Body r)) as [req | err]; [| discriminate].
  destruct (String.eqb_spec (idReceiverID (reqMessageID req)) (UserID user));
    [| discriminate].
  intros _. now exists user, req.
Qed.

(** X24: with the PostgreSQL repository, a status update answered 200 and
    then repeated is answered 200 with an updated count of 0, and the
    repetition leaves the table as the first update left it. *)
Theorem UpdateMessageStatus_twice {P : Type} `{MessagePublisher P}
    (decodeStatus : string -> UpdateStatusRequest + error)
    (h : MessageHandler postgres.Table P) (r : Request) (now later : Time) :
  let first := UpdateMessageStatus decodeStatus h r now in
  let second := UpdateMessageStatus decodeStatus (snd first) r later in
  StatusCode (fst first) = StatusOK ->
  fst second = mkResponse StatusOK (JSONUpdateStatus 0) /\
  MessageRepo (snd second) = MessageRepo (snd first).
Proof.
  intros first second Hok. apply UpdateMessageStatus_ok_inv in Hok.
  destruct Hok as (user & req & Hu & Hd & Hr).
  destruct (UpdateMessageStatus_applied decodeStatus h r now user req Hu Hd Hr)
    as [_ Hrepo1].
  destruct (UpdateMessageStatus_applied decodeStatus (snd first) r later
              user req Hu Hd Hr) as [Hresp2 Hrepo2].
  fold first in Hrepo1. fold second in Hresp2, Hrepo2.
  rewrite Hrepo1, cascade_settled in Hresp2, Hrepo2.
  rewrite Hresp2, Hrepo2, Hrepo1. split; reflexivity.
Qed.

Lemma UpdateMessageStatus_twice_witness :
  let first :=
    UpdateMessageStatus (publisher := failingPublisher) (alwaysID (idOf hiBob))
      (mkHandler [hiBob] tt []) (requestOf "/api/v1/messages/status" "bob" "")
      (at_ 7) in
  let second :=
    UpdateMessageStatus (publisher := failingPublisher) (alwaysID (idOf hiBob))
      (snd first) (requestOf "/api/v1/messages/status" "bob" "") (at_ 8) in
  fst second = mkResponse StatusOK (JSONUpdateStatus 0) /\
  MessageRepo (snd second) = MessageRepo (snd first).
Proof.
  apply (UpdateMessageStatus_twice (H := failingPublisher) (alwaysID (idOf hiBob))
           (mkHandler [hiBob] tt []) (requestOf "/api/v1/messages/status" "bob" "")
           (at_ 7) (at_ 8)).
  reflexivity.
Defined.

(** X25: the message list never answers 403 to a participant encoded in the
    chat identifier, and answers 403, asking nothing of the repository, to
    every user whose identifier does not occur in the chat identifier. *)
Theorem GetMessages_participant_check {R P : Type} `{MessageRepository R}
    (parseRFC3339 : string -> option Time) (formatRFC3339 : Time -> string)
    (Atoi : string -> option Z)
    (h : MessageHandler R P) (r : Request) (chatID : string) (user : UserContext) :
  pathParam (Path r) = Some chatID -> User r = Some user ->
  (encodedParticipant (UserID user) chatID ->
   StatusCode (fst (GetMessages parseRFC3339 formatRFC3339 Atoi h r))
   <> StatusForbidden) /\
  (strings.Contains chatID (UserID user) = false ->
   GetMessages parseRFC3339 formatRFC3339 Atoi h r
   = (writeErrorResponse StatusForbidden "Access denied" "ACCESS_DENIED"
        "User is not a participant in this chat", h)).
Proof.
  intros Hp Hu. split.
  - intros Henc. apply participant_passes in Henc.
    unfold GetMessages. rewrite Hp, Hu, Henc. cbn [negb].
    destruct (if String.eqb (Query r "cursor") "" then Some time.Zero
              else parseRFC3339 (Query r "cursor")); [| discriminate].
    destruct (if String.eqb (Query r "limit") "" then Some 50%Z else _);
      [| discriminate].
    destruct (repoGetMessages (MessageRepo h) chatID t z) as [[page | err] repo'];
      discriminate.
  - intros Hno. unfold GetMessages, isUserParticipant. now rewrite Hp, Hu, Hno.
Qed.

Lemma GetMessages_participant_check_witness :
  (encodedParticipant "bob" "alice---bob" /\
   StatusCode (fst (GetMessages (fun _ => None) (fun _ => "") strconvAtoi
                      (mkHandler [hiBob] tt [])
                      (listRequest "/api/v1/chats/alice---bob/messages" "bob" "" "")))
   <> StatusForbidden) /\
  (strings.Contains "alice---bob" "carol" = false /\
   GetMessages (fun _ => None) (fun _ => "") strconvAtoi
     (mkHandler [hiBob] tt [])
     (listRequest "/api/v1/chats/alice---bob/messages" "carol" "" "")
   = (writeErrorResponse StatusForbidden "Access denied" "ACCESS_DENIED"
        "User is not a participant in this chat", mkHandler [hiBob] tt [])).
Proof.
  assert (Hbob : encodedParticipant "bob" "alice---bob")
    by (exists "alice"; right; reflexivity).
  split.
  - split; [exact Hbob |].
    destruct (GetMessages_participant_check (H := postgresRepository)
                (fun _ => None) (fun _ => "") strconvAtoi
                (mkHandler [hiBob] tt [])
                (listRequest "/api/v1/chats/alice---bob/messages" "bob" "" "")
                "alice---bob" (userNamed "bob") eq_refl eq_refl) as [Hadmit _].
    exact (Hadmit Hbob).
  - split; [reflexivity |].
    destruct (GetMessages_participant_check (H := postgresRepository)
                (fun _ => None) (fun _ => "") strconvAtoi
                (mkHandler [hiBob] tt [])
                (listRequest "/api/v1/chats/alice---bob/messages" "carol" "" "")
                "alice---bob" (userNamed "carol") eq_refl eq_refl) as [_ Hrefuse].
    exact (Hrefuse eq_refl).
Defined.
